(** * Secure Data Vault (app.py): credential and envelope-encryption core

    A shallow embedding of [app.py]: the security functions [generate_salt]
    and [derive_key], the persistence functions [load_data] and [save_data],
    the dashboard, the three button handlers [login_page],
    [store_data_page] and [retrieve_data_page] and the flow of the script
    around them, with the session state of each browser session, the
    backing file and whether it can be written, the entropy source and the
    messages shown to the user made explicit.

    The Python standard library pieces the program relies on and whose
    behaviour is simple enough to write down are modelled concretely
    ([base64.urlsafe_b64encode], [base64.urlsafe_b64decode], [str.encode],
    [bytes.decode]).  The cryptographic and JSON libraries
    ([hashlib.pbkdf2_hmac], [cryptography.fernet.Fernet], [json]) are
    interfaces with their documented contracts. *)

From Stdlib Require Import ZArith NArith List String Ascii Bool Lia.
From Stdlib.Strings Require Import Byte.
From stdpp Require Import base option list gmap strings pretty.

Local Open Scope N_scope.

(** ** Bytes *)
Abbreviation bytes := (list byte).

Definition byte_of_N (n : N) : byte := default x00 (Byte.of_N (n mod 256)).

(** The list [0; 1; ...; n-1]. *)
Definition N_range (n : nat) : list N := map N.of_nat (seq 0 n).

Definition all_bytes : bytes := map byte_of_N (N_range 256).

Definition is_ascii (b : byte) : bool := Byte.to_N b <? 128.

Global Instance byte_eq_decision : EqDecision byte := Byte.byte_eq_dec.

(** ** Python [str] and [bytes]

    A Python [str] is represented by the byte string of its UTF-8 encoding,
    so [str.encode()] changes the representation only and [bytes.decode()]
    succeeds exactly on well-formed UTF-8 (it raises [UnicodeDecodeError]
    otherwise). *)

Definition str_encode (s : string) : bytes := list_byte_of_string s.

Definition is_cont (b : byte) : bool :=
  let n := Byte.to_N b in (128 <=? n) && (n <=? 191).

Definition in_range (lo hi : N) (b : byte) : bool :=
  let n := Byte.to_N b in (lo <=? n) && (n <=? hi).

(** Well-formed UTF-8 (Unicode 15, table 3-7): no overlong forms, no
    surrogates, nothing above U+10FFFF. *)
Fixpoint valid_utf8 (bs : bytes) : bool :=
  match bs with
  | [] => true
  | b0 :: r0 =>
      if is_ascii b0 then valid_utf8 r0
      else match r0 with
      | [] => false
      | b1 :: r1 =>
          if in_range 194 223 b0 then is_cont b1 && valid_utf8 r1
          else match r1 with
          | [] => false
          | b2 :: r2 =>
              if in_range 224 239 b0 then
                (if in_range 224 224 b0 then in_range 160 191 b1
                 else if in_range 237 237 b0 then in_range 128 159 b1
                 else is_cont b1)
                && is_cont b2 && valid_utf8 r2
              else match r2 with
              | [] => false
              | b3 :: r3 =>
                  if in_range 240 244 b0 then
                    (if in_range 240 240 b0 then in_range 144 191 b1
                     else if in_range 244 244 b0 then in_range 128 143 b1
                     else is_cont b1)
                    && is_cont b2 && is_cont b3 && valid_utf8 r3
                  else false
              end
          end
      end
  end.

Definition bytes_decode (bs : bytes) : option string :=
  if valid_utf8 bs then Some (string_of_list_byte bs) else None.

(** A well-formed Python string. *)
Definition wf_str (s : string) : Prop := valid_utf8 (str_encode s) = true.

(** ** Base64 ([base64.urlsafe_b64encode], [base64.urlsafe_b64decode])

    [urlsafe_b64encode(s)] is [b64encode(s)] with [+] and [/] translated to
    [-] and [_]; [urlsafe_b64decode(s)] translates back and calls
    [binascii.a2b_base64] in its default, non-strict mode. *)

Definition table_b2a_base64 : bytes :=
  str_encode "ABCDEFGHIJKLMNOPQRSTUVWXYZabcdefghijklmnopqrstuvwxyz0123456789+/".

Definition BASE64_PAD : byte := "=".

Definition b2a (i : N) : byte := nth (N.to_nat i) table_b2a_base64 BASE64_PAD.

Fixpoint index_of (c : byte) (l : bytes) (i : N) : option N :=
  match l with
  | [] => None
  | x :: r => if Byte.eqb c x then Some i else index_of c r (N.succ i)
  end.

(** [table_a2b_base64]: the value of a base64 digit, [None] for any other
    byte. *)
Definition table_a2b_base64 (c : byte) : option N := index_of c table_b2a_base64 0.

Definition shl (a : N) (n : N) : N := N.shiftl a n.
Definition shr (a : N) (n : N) : N := N.shiftr a n.

(** [binascii.b2a_base64(s, newline=False)]. *)
Fixpoint b2a_base64 (bs : bytes) : bytes :=
  match bs with
  | [] => []
  | [a] =>
      let a := Byte.to_N a in
      [b2a (shr a 2); b2a (shl (N.land a 3) 4); BASE64_PAD; BASE64_PAD]
  | [a; b] =>
      let a := Byte.to_N a in let b := Byte.to_N b in
      [b2a (shr a 2); b2a (N.lor (shl (N.land a 3) 4) (shr b 4));
       b2a (shl (N.land b 15) 2); BASE64_PAD]
  | a :: b :: c :: rest =>
      let a := Byte.to_N a in let b := Byte.to_N b in let c := Byte.to_N c in
      b2a (shr a 2) :: b2a (N.lor (shl (N.land a 3) 4) (shr b 4))
      :: b2a (N.lor (shl (N.land b 15) 2) (shr c 6)) :: b2a (N.land c 63)
      :: b2a_base64 rest
  end.

(** The decoding loop of [binascii.a2b_base64] (non-strict): [quad_pos] is
    the position inside the current group of four digits, [leftchar] the
    bits not yet written, [pads] the number of padding characters seen since
    the last digit.  Bytes that are neither a digit nor [=] are skipped.
    [None] stands for [binascii.Error]. *)
Fixpoint a2b_loop (s : bytes) (quad_pos leftchar pads : N) (out : bytes)
  : option bytes :=
  match s with
  | [] => if quad_pos =? 0 then Some out else None
  | this_ch :: rest =>
      if Byte.eqb this_ch BASE64_PAD then
        if (2 <=? quad_pos) && (4 <=? quad_pos + (pads + 1)) then Some out
        else a2b_loop rest quad_pos leftchar
               (if 2 <=? quad_pos then pads + 1 else pads) out
      else
        match table_a2b_base64 this_ch with
        | None => a2b_loop rest quad_pos leftchar pads out
        | Some v =>
            if quad_pos =? 0 then a2b_loop rest 1 v 0 out
            else if quad_pos =? 1 then
              a2b_loop rest 2 (N.land v 15) 0
                (out ++ [byte_of_N (N.lor (shl leftchar 2) (shr v 4))])
            else if quad_pos =? 2 then
              a2b_loop rest 3 (N.land v 3) 0
                (out ++ [byte_of_N (N.lor (shl leftchar 4) (shr v 2))])
            else
              a2b_loop rest 0 0 0
                (out ++ [byte_of_N (N.lor (shl leftchar 6) v)])
        end
  end.

Definition a2b_base64 (s : bytes) : option bytes := a2b_loop s 0 0 0 [].

Definition urlsafe_encode_translation (c : byte) : byte :=
  if Byte.eqb c "+" then "-" else if Byte.eqb c "/" then "_" else c.

Definition urlsafe_decode_translation (c : byte) : byte :=
  if Byte.eqb c "-" then "+" else if Byte.eqb c "_" then "/" else c.

Definition urlsafe_b64encode (s : bytes) : bytes :=
  map urlsafe_encode_translation (b2a_base64 s).

(** On [bytes]. *)
Definition urlsafe_b64decode_bytes (s : bytes) : option bytes :=
  a2b_base64 (map urlsafe_decode_translation s).

(** Errors of [urlsafe_b64decode] applied to a [str]: a non-ASCII string is
    refused with [ValueError], anything else that does not decode with
    [binascii.Error]. *)
Inductive b64_result :=
  | B64Ok (bs : bytes)
  | B64ValueError
  | B64BinasciiError.

Definition urlsafe_b64decode (s : string) : b64_result :=
  let bs := str_encode s in
  if forallb is_ascii bs then
    match urlsafe_b64decode_bytes bs with
    | Some r => B64Ok r
    | None => B64BinasciiError
    end
  else B64ValueError.

(** A base64 digit as it reaches the decoding loop: encoded, made URL-safe,
    and translated back. *)
Definition digit (i : N) : byte :=
  urlsafe_decode_translation (urlsafe_encode_translation (b2a i)).

(** The four digits of a group, as functions of the neighbouring bytes. *)
Definition sextet_hi (a : byte) : N := shr (Byte.to_N a) 2.

Definition sextet_mid1 (a b : byte) : N :=
  N.lor (shl (N.land (Byte.to_N a) 3) 4) (shr (Byte.to_N b) 4).

Definition sextet_mid2 (a b : byte) : N :=
  N.lor (shl (N.land (Byte.to_N a) 15) 2) (shr (Byte.to_N b) 6).

Definition sextet_lo (a : byte) : N := N.land (Byte.to_N a) 63.

(** The arithmetic of one group, checked on every pair of bytes: the digits
    are below 64 and the decoder's shifts give the bytes back. *)
Definition sextets_ok (a b : byte) : bool :=
  (sextet_hi a <? 64) && (sextet_mid1 a b <? 64) && (sextet_mid2 a b <? 64)
  && (sextet_lo a <? 64)
  && Byte.eqb (byte_of_N (N.lor (shl (sextet_hi a) 2) (shr (sextet_mid1 a b) 4))) a
  && (N.land (sextet_mid1 a b) 15 =? shr (Byte.to_N b) 4)
  && Byte.eqb (byte_of_N (N.lor (shl (shr (Byte.to_N a) 4) 4) (shr (sextet_mid2 a b) 2))) a
  && (N.land (sextet_mid2 a b) 3 =? shr (Byte.to_N b) 6)
  && Byte.eqb (byte_of_N (N.lor (shl (shr (Byte.to_N a) 6) 6) (sextet_lo a))) a.

(** The [str] obtained from [urlsafe_b64encode(s).decode()]. *)
Definition b64_str (bs : bytes) : string := string_of_list_byte (urlsafe_b64encode bs).

(** ** External libraries

    [hashlib.pbkdf2_hmac('sha256', ...)], [cryptography.fernet.Fernet] and
    [json] are interfaces; every definition below takes them as parameters. *)

(** [pbkdf2_hmac_sha256 password salt iterations]: the derived key for the
    default [dklen]. *)
Class KdfLib := { pbkdf2_hmac_sha256 : bytes → bytes → N → bytes }.

(** The largest iteration count [hashlib.pbkdf2_hmac] accepts (C's
    [INT_MAX]); above it the call raises [OverflowError]. *)
Definition MAX_ITERATIONS : N := 2147483647.

(** With [dklen] left out the derived key has the length of a SHA-256
    digest.  HMAC pads a key shorter than the 64-byte block of SHA-256 with
    zero bytes (RFC 2104), so a password of fewer than 64 bytes and the same
    password followed by a zero byte derive the same key. *)
Class KdfLaws {kdf : KdfLib} : Prop := {
  pbkdf2_length :
    ∀ password salt iterations,
      1 ≤ iterations → iterations ≤ MAX_ITERATIONS →
      length (pbkdf2_hmac_sha256 password salt iterations) = 32%nat;
  pbkdf2_key_padding :
    ∀ password salt iterations,
      (length password < 64)%nat →
      pbkdf2_hmac_sha256 (password ++ [x00]) salt iterations
      = pbkdf2_hmac_sha256 password salt iterations
}.

(** [fernet_encrypt key iv time data] is the token that
    [Fernet(key).encrypt_at_time(data, time)] builds when [os.urandom(16)]
    returns [iv]; [fernet_decrypt key token] is [Fernet(key).decrypt(token)],
    [None] standing for [InvalidToken].  [key] is the raw 32-byte key. *)
Class FernetLib := {
  fernet_encrypt : bytes → bytes → N → bytes → bytes;
  fernet_decrypt : bytes → bytes → option bytes
}.

(** A token decrypts under the key that made it, and tokens are non-empty
    URL-safe base64 text.

    The first 16 bytes of a Fernet key are its signing key, with which the
    token's HMAC is made and checked.  [fernet_rejects_other_signing_key]
    is the authentication contract in its ideal form, forgeries left out: a
    token does not verify under another signing key.  [fernet_authentic]
    holds of the token format: whatever decrypts to [data] under [key]
    carries, once base64-decoded, the very bytes of the token [key] makes
    of [data] with the IV and the time found in it. *)
Class FernetLaws {fernet : FernetLib} : Prop := {
  fernet_rejects_other_signing_key :
    ∀ key key' iv time data,
      length key = 32%nat → length key' = 32%nat → length iv = 16%nat →
      time < 2 ^ 64 → take 16 key' ≠ take 16 key →
      fernet_decrypt key' (fernet_encrypt key iv time data) = None;
  fernet_authentic :
    ∀ key token data,
      length key = 32%nat →
      fernet_decrypt key token = Some data →
      ∃ iv time,
        length iv = 16%nat ∧ time < 2 ^ 64
        ∧ urlsafe_b64decode_bytes token
          = urlsafe_b64decode_bytes (fernet_encrypt key iv time data);
  fernet_decrypt_encrypt :
    ∀ key iv time data,
      length key = 32%nat → length iv = 16%nat → time < 2 ^ 64 →
      fernet_decrypt key (fernet_encrypt key iv time data) = Some data;
  fernet_token_ascii :
    ∀ key iv time data,
      length key = 32%nat → length iv = 16%nat → time < 2 ^ 64 →
      forallb is_ascii (fernet_encrypt key iv time data) = true;
  fernet_token_nonempty :
    ∀ key iv time data,
      length key = 32%nat → length iv = 16%nat → time < 2 ^ 64 →
      fernet_encrypt key iv time data ≠ []
}.

(** JSON documents; a number keeps its literal. *)
#[local] Unset Elimination Schemes.
Inductive json :=
  | JNull
  | JBool (b : bool)
  | JNumber (literal : string)
  | JString (s : string)
  | JArray (items : list json)
  | JObject (members : list (string * json)).
#[local] Set Elimination Schemes.

(** What [json.loads] ends in: the document, [json.JSONDecodeError] for
    text that is not JSON, or, on JSON text, the [ValueError] of an integer
    literal beyond the digit limit of [int] or the [RecursionError] of a
    nesting beyond the interpreter's limit. *)
Inductive loads_result :=
  | Loaded (v : json)
  | LoadsDecodeError
  | LoadsValueError
  | LoadsRecursionError.

(** [json_loads text] is [json.loads(text)]; [json_dumps v] is
    [json.dumps(v, indent=4)]. *)
Class JsonLib := {
  json_loads : string → loads_result;
  json_dumps : json → string
}.

(** ** Data model *)

(** An element of a user's ["entries"] list. *)
Record entry := {
  encrypted_data : string;
  entry_salt : string
}.

(** The value stored under a username.  The store is typed: it stands for
    the documents of the shape the program itself writes, a mapping from
    usernames to records with exactly these three fields, the entries with
    exactly their two.  A loaded document of another shape (a record
    without ["entries"], say) has no counterpart here. *)
Record account := {
  password_salt : string;
  password_hash : string;
  entries : list entry
}.

Global Instance entry_eq_dec : EqDecision entry.
Proof. solve_decision. Defined.

Global Instance account_eq_dec : EqDecision account.
Proof. solve_decision. Defined.

(** [st.session_state]. *)
Record session_state := {
  data_store : gmap string account;
  failed_attempts : Z;
  authorized : bool;
  current_user : string
}.

(** The file named [DATA_FILE]: absent, or present with its bytes; [readable]
    tells whether [open(DATA_FILE, "r")] is permitted.  Whether the file can
    be written is a matter of its own ([disk_state]): a file may be written
    and not read. *)
Inductive file :=
  | Absent
  | Present (readable : bool) (content : bytes).

(** What [open(DATA_FILE, "w")] and the write after it meet.  [Unwritable]:
    [open] raises [OSError] ([PermissionError], [IsADirectoryError], ...)
    and the file is left as it was.  [Full room]: [open] truncates the
    file, and a document of more than [room] bytes is cut off there, the
    write raising [OSError] (no space left). *)
Inductive disk_state :=
  | Writable
  | Unwritable
  | Full (room : nat).

(** What a handler runs in: the session state, the backing file, whether it
    can be written, the bytes [os.urandom] will return and the value of
    [int(time.time())]. *)
Record world := {
  session : session_state;
  data_file : file;
  disk : disk_state;
  entropy : nat → byte;
  clock : N
}.

Definition set_session (s : session_state) (w : world) : world :=
  {| session := s; data_file := data_file w; disk := disk w; entropy := entropy w;
     clock := clock w |}.

Definition set_data_file (f : file) (w : world) : world :=
  {| session := session w; data_file := f; disk := disk w; entropy := entropy w;
     clock := clock w |}.

Definition set_disk (d : disk_state) (w : world) : world :=
  {| session := session w; data_file := data_file w; disk := d; entropy := entropy w;
     clock := clock w |}.

Definition set_entropy (e : nat → byte) (w : world) : world :=
  {| session := session w; data_file := data_file w; disk := disk w; entropy := e;
     clock := clock w |}.

Definition set_data_store (d : gmap string account) (s : session_state) : session_state :=
  {| data_store := d; failed_attempts := failed_attempts s;
     authorized := authorized s; current_user := current_user s |}.

Definition set_failed_attempts (n : Z) (s : session_state) : session_state :=
  {| data_store := data_store s; failed_attempts := n;
     authorized := authorized s; current_user := current_user s |}.

Definition set_authorized (b : bool) (s : session_state) : session_state :=
  {| data_store := data_store s; failed_attempts := failed_attempts s;
     authorized := b; current_user := current_user s |}.

Definition set_current_user (u : string) (s : session_state) : session_state :=
  {| data_store := data_store s; failed_attempts := failed_attempts s;
     authorized := authorized s; current_user := u |}.

(** The session state the script sets up on its first run (the four
    [if ... not in st.session_state] blocks), given what [load_data]
    returned. *)
Definition fresh_session (loaded : gmap string account) : session_state :=
  {| data_store := loaded; failed_attempts := 0; authorized := false;
     current_user := "" |}.

(** ** Effects

    A handler maps a world to a result, the world it leaves, and the trace
    of what it did: the messages shown and the key derivations run. *)

Inductive exn :=
  | KeyError
  | ValueError
  | BinasciiError
  | UnicodeDecodeError
  | PermissionError
  | FileNotFoundError
  | OSError
  | JSONDecodeError
  | RecursionError
  | OverflowError
  | InvalidToken
  | RerunException.

Global Instance exn_eq_dec : EqDecision exn.
Proof. solve_decision. Defined.

Inductive event :=
  | st_error (msg : string)
  | st_success (msg : string)
  | st_code (body : string)
  | st_text_area (label value : string)
  | ev_pbkdf2_hmac (password salt : bytes) (iterations : N).

Inductive result (A : Type) :=
  | Ok (a : A)
  | Raise (e : exn).
Arguments Ok {A} a.
Arguments Raise {A} e.

Definition M (A : Type) : Type := world → result A * world * list event.

Definition ret {A} (a : A) : M A := λ w, (Ok a, w, []).

Definition bind {A B} (m : M A) (k : A → M B) : M B :=
  λ w, match m w with
       | (Ok a, w1, t1) => let '(r, w2, t2) := k a w1 in (r, w2, t1 ++ t2)
       | (Raise e, w1, t1) => (Raise e, w1, t1)
       end.

Definition raise {A} (e : exn) : M A := λ w, (Raise e, w, []).

Definition emit (e : event) : M unit := λ w, (Ok tt, w, [e]).

Definition get_session : M session_state := λ w, (Ok (session w), w, []).

Definition modify_session (f : session_state → session_state) : M unit :=
  λ w, (Ok tt, set_session (f (session w)) w, []).

(** [try: body except (classes): handler]. *)
Definition try_except {A} (body : M A) (classes : list exn) (handler : M A) : M A :=
  λ w, match body w with
       | (Raise e, w1, t1) =>
           if bool_decide (e ∈ classes)
           then let '(r, w2, t2) := handler w1 in (r, w2, t1 ++ t2)
           else (Raise e, w1, t1)
       | ok => ok
       end.

(** [try: body except: handler], which catches everything. *)
Definition try_except_all {A} (body : M A) (handler : M A) : M A :=
  λ w, match body w with
       | (Raise e, w1, t1) => let '(r, w2, t2) := handler w1 in (r, w2, t1 ++ t2)
       | ok => ok
       end.

Global Instance M_ret : MRet M := @ret.
Global Instance M_bind : MBind M := λ A B k m, bind m k.

(** ** The program *)

Section program.
Context {kdf : KdfLib} {fernet : FernetLib} {jsonlib : JsonLib}.

(** *** Constants *)

Definition DATA_FILE : string := "data_store.json".
Definition MAX_FAILED_ATTEMPTS : Z := 3.
Definition PBKDF2_ITERATIONS : N := 100000.

(** *** Library calls as effects *)

(** [os.urandom(n)]: the next [n] bytes of the entropy source. *)
Definition os_urandom (n : nat) : M bytes :=
  λ w, (Ok (map (entropy w) (seq 0 n)),
        set_entropy (λ i, entropy w (n + i)%nat) w, []).

(** [int(time.time())]. *)
Definition time_time : M N := λ w, (Ok (clock w), w, []).

(** [bytes.decode()]. *)
Definition decode (bs : bytes) : M string :=
  match bytes_decode bs with
  | Some s => mret s
  | None => raise UnicodeDecodeError
  end.

(** [pbkdf2_hmac('sha256', password, salt, iterations)]: a count below 1
    is a [ValueError], one above [INT_MAX] an [OverflowError]; every call
    that derives is recorded in the trace. *)
Definition pbkdf2_hmac (password salt : bytes) (iterations : N) : M bytes :=
  if iterations <? 1 then raise ValueError
  else if MAX_ITERATIONS <? iterations then raise OverflowError
  else emit (ev_pbkdf2_hmac password salt iterations);;
       mret (pbkdf2_hmac_sha256 password salt iterations).

(** [urlsafe_b64decode(s)] for a [str]. *)
Definition b64decode (s : string) : M bytes :=
  match urlsafe_b64decode s with
  | B64Ok bs => mret bs
  | B64ValueError => raise ValueError
  | B64BinasciiError => raise BinasciiError
  end.

(** [Fernet(key)]: the key must be the URL-safe base64 text of 32 bytes,
    [ValueError] otherwise.  The result is the raw key. *)
Definition Fernet (key : string) : M bytes :=
  match urlsafe_b64decode key with
  | B64Ok k => if (length k =? 32)%nat then mret k else raise ValueError
  | _ => raise ValueError
  end.

(** [cipher.encrypt(data)]. *)
Definition cipher_encrypt (cipher : bytes) (data : bytes) : M bytes :=
  current_time ← time_time;
  iv ← os_urandom 16;
  mret (fernet_encrypt cipher iv current_time data).

(** [cipher.decrypt(token)]. *)
Definition cipher_decrypt (cipher : bytes) (token : bytes) : M bytes :=
  match fernet_decrypt cipher token with
  | Some data => mret data
  | None => raise InvalidToken
  end.

(** *** Security functions *)

Definition generate_salt : M bytes := os_urandom 16.

(** [derive_key(password, salt, iterations=PBKDF2_ITERATIONS)]: the
    optional argument is [None] when the caller leaves it out, and the
    default is used then. *)
Definition derive_key (password : string) (salt : bytes) (iterations : option N)
  : M string :=
  key ← pbkdf2_hmac (str_encode password) salt (default PBKDF2_ITERATIONS iterations);
  decode (urlsafe_b64encode key).

(** *** Data handling *)

Definition json_of_entry (e : entry) : json :=
  JObject [("encrypted_data", JString (encrypted_data e));
           ("entry_salt", JString (entry_salt e))].

Definition json_of_account (a : account) : json :=
  JObject [("password_salt", JString (password_salt a));
           ("password_hash", JString (password_hash a));
           ("entries", JArray (map json_of_entry (entries a)))].

(** The store as the JSON value [json.dump] receives (the order of the
    usernames in the document is not modelled). *)
Definition json_of_store (d : gmap string account) : json :=
  JObject (map (λ '(u, a), (u, json_of_account a)) (map_to_list d)).

Definition os_path_exists : M bool :=
  λ w, (Ok (match data_file w with Absent => false | Present _ _ => true end), w, []).

(** [open(DATA_FILE, "r")] followed by reading all of it, as bytes. *)
Definition open_read : M bytes :=
  λ w, match data_file w with
       | Absent => (Raise FileNotFoundError, w, [])
       | Present false _ => (Raise PermissionError, w, [])
       | Present true content => (Ok content, w, [])
       end.

(** [json.load(f)] on a file opened in text mode: the bytes are decoded
    (UTF-8) and the text parsed. *)
Definition json_load (content : bytes) : M json :=
  text ← decode content;
  match json_loads text with
  | Loaded v => mret v
  | LoadsDecodeError => raise JSONDecodeError
  | LoadsValueError => raise ValueError
  | LoadsRecursionError => raise RecursionError
  end.

Definition load_data : M json :=
  e ← os_path_exists;
  if e : bool then
    try_except (content ← open_read; json_load content)
      [JSONDecodeError; FileNotFoundError]
      (mret (JObject []))
  else mret (JObject []).

(** The bytes [json.dump(data, f, indent=4)] writes. *)
Definition store_document (data : gmap string account) : bytes :=
  str_encode (json_dumps (json_of_store data)).

(** The file once [open(DATA_FILE, "w")] has created or truncated it and
    [content] was written; an existing file keeps its permissions. *)
Definition file_write (content : bytes) (f : file) : file :=
  match f with
  | Absent => Present true content
  | Present r _ => Present r content
  end.

(** [with open(DATA_FILE, "w") as f: json.dump(data, f, indent=4)].  When
    the file cannot be opened for writing, [OSError] is raised and the file
    is untouched; when the disk is full, the file keeps the part of the
    document that fitted and [OSError] is raised; otherwise the file holds
    the whole document. *)
Definition save_data (data : gmap string account) : M unit :=
  λ w, let document := store_document data in
       match disk w with
       | Writable =>
           (Ok tt, set_data_file (file_write document (data_file w)) w, [])
       | Unwritable => (Raise OSError, w, [])
       | Full room =>
           if (length document <=? room)%nat
           then (Ok tt, set_data_file (file_write document (data_file w)) w, [])
           else (Raise OSError,
                 set_data_file (file_write (take room document) (data_file w)) w, [])
       end.

(** [st.rerun()] stops the script. *)
Definition st_rerun : M unit := raise RerunException.

(** *** Dashboard *)

(** [dashboard_page]: the card shows [len(entries)] for the current user's
    record; the model returns the number shown.  Looking the record up
    raises [KeyError] when there is none. *)
Definition dashboard_page : M nat :=
  s ← get_session;
  match data_store s !! current_user s with
  | None => raise KeyError
  | Some acct => mret (length (entries acct))
  end.

(** *** Login / register page

    [login_page clicked username password] is the body of [login_page]
    with the two text inputs holding [username] and [password], [clicked]
    telling whether the button was pressed. *)
Definition login_page (clicked : bool) (username password : string) : M unit :=
  if clicked then
    if (username =? "")%string || (password =? "")%string then
      emit (st_error "Please fill all fields")
    else
      s ← get_session;
      let users := data_store s in
      proceed ←
        match users !! username with
        | None =>
            password_salt ← generate_salt;
            salt_text ← decode (urlsafe_b64encode password_salt);
            hash ← derive_key password password_salt None;
            modify_session (set_data_store
              (<[username := {| password_salt := salt_text;
                                password_hash := hash;
                                entries := [] |}]> users));;
            emit (st_success "Account created! Logged in.");;
            mret true
        | Some acct =>
            stored_salt ← b64decode (password_salt acct);
            attempt_hash ← derive_key password stored_salt None;
            if negb (attempt_hash =? password_hash acct)%string then
              modify_session (λ s, set_failed_attempts (failed_attempts s + 1) s);;
              s ← get_session;
              let remaining := (MAX_FAILED_ATTEMPTS - failed_attempts s)%Z in
              emit (st_error ("Invalid credentials. " +:+ pretty remaining
                              +:+ " attempts left"));;
              mret false
            else mret true
        end;
      if proceed : bool then
        modify_session (set_current_user username);;
        modify_session (set_authorized true);;
        s ← get_session;
        save_data (data_store s);;
        st_rerun
      else mret tt
  else mret tt.

(** *** Store page *)
Definition store_data_page (clicked : bool) (data passkey : string) : M unit :=
  if clicked then
    if (data =? "")%string || (passkey =? "")%string then
      emit (st_error "All fields required")
    else
      entry_salt ← generate_salt;
      key ← derive_key passkey entry_salt None;
      cipher ← Fernet key;
      token ← cipher_encrypt cipher (str_encode data);
      encrypted_data ← decode token;
      salt_text ← decode (urlsafe_b64encode entry_salt);
      let new_entry := {| encrypted_data := encrypted_data;
                          entry_salt := salt_text |} in
      s ← get_session;
      match data_store s !! current_user s with
      | None => raise KeyError
      | Some acct =>
          modify_session (set_data_store
            (<[current_user s := {| password_salt := password_salt acct;
                                    password_hash := password_hash acct;
                                    entries := entries acct ++ [new_entry] |}]>
               (data_store s)));;
          s ← get_session;
          save_data (data_store s);;
          emit (st_success "Data encrypted and saved!");;
          emit (st_code encrypted_data)
      end
  else mret tt.

(** *** Retrieve page *)

(** [next((e for e in entries if e["encrypted_data"] == encrypted_input), None)]. *)
Fixpoint find_entry (entries : list entry) (encrypted_input : string) : option entry :=
  match entries with
  | [] => None
  | e :: rest =>
      if (encrypted_data e =? encrypted_input)%string then Some e
      else find_entry rest encrypted_input
  end.

(** What [retrieve_data_page] does with the entry it found: derive the key
    from the entry's salt, then decrypt inside the [try]. *)
Definition decrypt_entry (e : entry) (encrypted_input passkey : string) : M unit :=
  entry_salt ← b64decode (entry_salt e);
  key ← derive_key passkey entry_salt None;
  try_except_all
    (cipher ← Fernet key;
     plain ← cipher_decrypt cipher (str_encode encrypted_input);
     decrypted ← decode plain;
     emit (st_success "Decrypted successfully!");;
     emit (st_text_area "Decrypted Data" decrypted))
    (emit (st_error "Invalid passkey or corrupted data")).

Definition retrieve_data_page (clicked : bool) (encrypted_input passkey : string)
  : M unit :=
  if clicked then
    if (encrypted_input =? "")%string || (passkey =? "")%string then
      emit (st_error "All fields required")
    else
      s ← get_session;
      match data_store s !! current_user s with
      | None => raise KeyError
      | Some acct =>
          match find_entry (entries acct) encrypted_input with
          | None => emit (st_error "Data not found")
          | Some e => decrypt_entry e encrypted_input passkey
          end
      end
  else mret tt.

(** *** The handlers as one transition function *)

Inductive action :=
  | Login (username password : string)
  | Store (data passkey : string)
  | Retrieve (encrypted_input passkey : string).

(** Pressing the button of a page with its inputs filled in. *)
Definition press (a : action) : M unit :=
  match a with
  | Login username password => login_page true username password
  | Store data passkey => store_data_page true data passkey
  | Retrieve encrypted_input passkey => retrieve_data_page true encrypted_input passkey
  end.

(** *** App flow *)

(** The sidebar's logout button. *)
Definition logout : M unit :=
  modify_session (set_authorized false);;
  modify_session (set_current_user "");;
  st_rerun.

Inductive click :=
  | ClickPage (a : action)
  | ClickLogout.

(** One run of the script with one button pressed: the pages behind the
    sidebar and the logout button are rendered only when [authorized] holds,
    the login page only when it does not. *)
Definition app_flow (c : click) : M unit :=
  s ← get_session;
  if authorized s then
    match c with
    | ClickLogout => logout
    | ClickPage (Login _ _) => mret tt
    | ClickPage a => press a
    end
  else
    match c with
    | ClickPage (Login username password) => login_page true username password
    | _ => mret tt
    end.

(** *** The server process

    Streamlit keeps one [st.session_state] per browser session, and the
    script runs in the session whose button was pressed; this is why the
    script sets its four keys up under [if ... not in st.session_state].
    The backing file, the entropy source and the clock belong to the
    process and are shared by its sessions. *)
Record process := {
  sessions : list session_state;
  proc_file : file;
  proc_disk : disk_state;
  proc_entropy : nat → byte;
  proc_clock : N
}.

(** The world a script run sees in a session whose state is [s]. *)
Definition session_world (p : process) (s : session_state) : world :=
  {| session := s; data_file := proc_file p; disk := proc_disk p;
     entropy := proc_entropy p; clock := proc_clock p |}.

(** The process once a run in session [i] has left the world [w]. *)
Definition process_after (i : nat) (w : world) (p : process) : process :=
  {| sessions := <[i := session w]> (sessions p);
     proc_file := data_file w; proc_disk := disk w;
     proc_entropy := entropy w; proc_clock := clock w |}.

(** A browser connects.  The first run of the script in the new session
    executes the four set-up blocks; [loaded] is what [load_data]
    returned. *)
Definition connect (loaded : gmap string account) (p : process) : process :=
  {| sessions := sessions p ++ [fresh_session loaded];
     proc_file := proc_file p; proc_disk := proc_disk p;
     proc_entropy := proc_entropy p; proc_clock := proc_clock p |}.

(** One run of the script in session [i] with one button pressed; nothing
    happens when there is no such session. *)
Definition run_session (i : nat) (c : click) (p : process)
  : result unit * process * list event :=
  match sessions p !! i with
  | Some s =>
      let '(r, w, t) := app_flow c (session_world p s) in
      (r, process_after i w p, t)
  | None => (Ok tt, p, [])
  end.

(** The failed-attempts counter of session [i]. *)
Definition session_counter (i : nat) (p : process) : option Z :=
  failed_attempts <$> sessions p !! i.

End program.

Definition result_of {A} (x : result A * world * list event) : result A := x.1.1.
Definition world_of {A} (x : result A * world * list event) : world := x.1.2.
Definition trace_of {A} (x : result A * world * list event) : list event := x.2.

Definition process_of {A} (x : result A * process * list event) : process := x.1.2.

(** ** Vocabulary of the statements *)

(** The raw key [pbkdf2_hmac] returns for a password and a salt at the
    program's iteration count, and the text [derive_key] makes of it. *)
Definition raw_key {kdf : KdfLib} (password : string) (salt : bytes) : bytes :=
  pbkdf2_hmac_sha256 (str_encode password) salt PBKDF2_ITERATIONS.

Definition derived_key {kdf : KdfLib} (password : string) (salt : bytes) : string :=
  b64_str (raw_key password salt).

(** The trace entry of that derivation. *)
Definition kdf_call (password : string) (salt : bytes) : event :=
  ev_pbkdf2_hmac (str_encode password) salt PBKDF2_ITERATIONS.

(** The [n] bytes [os.urandom] returns after [skip] bytes were consumed. *)
Definition urandom_bytes (w : world) (skip n : nat) : bytes :=
  map (λ i, entropy w (skip + i)%nat) (seq 0 n).

(** A password or passkey followed by a NUL character. *)
Definition NUL : string := String "000" EmptyString.

Definition padded (s : string) : string := s +:+ NUL.

Definition with_failed_attempts (n : Z) (w : world) : world :=
  set_session (set_failed_attempts n (session w)) w.

(** The message of a refused login once the counter stands at [failed]. *)
Definition invalid_credentials (failed : Z) : event :=
  st_error ("Invalid credentials. " +:+ pretty (MAX_FAILED_ATTEMPTS - failed)%Z
            +:+ " attempts left").

Definition uses_fixed_iterations (e : event) : Prop :=
  match e with
  | ev_pbkdf2_hmac _ _ iterations => iterations = PBKDF2_ITERATIONS
  | _ => True
  end.

(** A login attempt for an existing user that the program refuses: both
    fields are filled in, the stored salt decodes, and the key derived from
    the submitted password is not the stored verifier. *)
Definition rejected_login {kdf : KdfLib} (w : world) (username password : string) (salt : bytes)
  : Prop :=
  username ≠ "" ∧ password ≠ ""
  ∧ ∃ acct, data_store (session w) !! username = Some acct
            ∧ urlsafe_b64decode (password_salt acct) = B64Ok salt
            ∧ derived_key password salt ≠ password_hash acct.

(** Whoever is logged in has a record in the store. *)
Definition current_user_known (w : world) : Prop :=
  authorized (session w) = true →
  is_Some (data_store (session w) !! current_user (session w)).

(** The worlds the script can be in: a first run, whatever was loaded, and
    what button presses make of it. *)
Inductive reachable {kdf : KdfLib} {fernet : FernetLib} {jsonlib : JsonLib}
  : world → Prop :=
  | reachable_fresh (loaded : gmap string account) (f : file) (d : disk_state)
        (e : nat → byte) (t : N) :
      reachable {| session := fresh_session loaded; data_file := f; disk := d;
                   entropy := e; clock := t |}
  | reachable_click (c : click) (w : world) :
      reachable w → reachable (world_of (app_flow c w)).

(** The entry [store_data_page] appends for [data] and [passkey] in world
    [w]: the salt is the next 16 bytes of entropy, Fernet's IV the 16 after
    them. *)
Definition sealed_token {kdf : KdfLib} {fernet : FernetLib} (w : world) (data passkey : string) : bytes :=
  fernet_encrypt (raw_key passkey (urandom_bytes w 0 16)) (urandom_bytes w 16 16)
    (clock w) (str_encode data).

Definition sealed_entry {kdf : KdfLib} {fernet : FernetLib} (w : world) (data passkey : string) : entry :=
  {| encrypted_data := string_of_list_byte (sealed_token w data passkey);
     entry_salt := b64_str (urandom_bytes w 0 16) |}.

Definition add_entry (e : entry) (acct : account) : account :=
  {| password_salt := password_salt acct; password_hash := password_hash acct;
     entries := entries acct ++ [e] |}.

(** ** Executable stand-ins for the libraries

    Small implementations of the three interfaces, used to run the model on
    concrete inputs.  They meet the contracts above and are not meant to be
    secure. *)

Fixpoint drop_zeros (bs : bytes) : bytes :=
  match bs with
  | x00 :: rest => drop_zeros rest
  | _ => bs
  end.

(** The password without the zero bytes at its end. *)
Definition strip_zeros (bs : bytes) : bytes := reverse (drop_zeros (reverse bs)).

(** Like HMAC, the stand-in does not see zero bytes at the end of the
    password. *)
Definition sim_kdf : KdfLib :=
  {| pbkdf2_hmac_sha256 password salt iterations :=
       take 32 (strip_zeros password ++ salt ++ replicate 32 x00) |}.

Definition sim_fernet : FernetLib :=
  {| fernet_encrypt key iv time data := urlsafe_b64encode (key ++ iv ++ data);
     fernet_decrypt key token :=
       match urlsafe_b64decode_bytes token with
       | Some raw =>
           if bool_decide (take 32 raw = key) && (48 <=? length raw)%nat
           then Some (drop 48 raw) else None
       | None => None
       end |}.

Definition sim_json : JsonLib :=
  {| json_loads text :=
       if (text =? "{}")%string then Loaded (JObject []) else LoadsDecodeError;
     json_dumps v := "{}"%string |}.

Definition sim_entropy (i : nat) : byte := byte_of_N (N.of_nat i * 7 + 3).

(** A first run with no backing file. *)
Definition w_fresh : world :=
  {| session := fresh_session ∅; data_file := Absent; disk := Writable;
     entropy := sim_entropy; clock := 1762214400 |}.

(** After ["alice"] registered with password ["pw1"]. *)
Definition w_alice : world :=
  world_of (login_page (kdf := sim_kdf) (jsonlib := sim_json) true "alice" "pw1" w_fresh).

(** After she stored ["hello world"] under the passkey ["k1"]. *)
Definition w_sealed : world :=
  world_of (store_data_page (kdf := sim_kdf) (fernet := sim_fernet) (jsonlib := sim_json)
              true "hello world" "k1" w_alice).

(** The ciphertext that run displayed. *)
Definition c_sealed : string :=
  string_of_list_byte (sealed_token (kdf := sim_kdf) (fernet := sim_fernet) w_alice "hello world" "k1").

(** Both ["alice"] and ["bob"] (password ["pw2"]) are registered. *)
Definition w_two : world :=
  world_of (login_page (kdf := sim_kdf) (jsonlib := sim_json) true "bob" "pw2" w_alice).

(** A user whose second and third entries carry the same ciphertext text
    under different salts. *)
Definition e_first : entry := {| encrypted_data := "AAAA"; entry_salt := "c2FsdC1vbmU=" |}.

Definition e_second : entry := {| encrypted_data := "BBBB"; entry_salt := "c2FsdC10d28=" |}.

Definition e_third : entry := {| encrypted_data := "BBBB"; entry_salt := "c2FsdC0zMzM=" |}.

Definition w_dup : world :=
  {| session :=
       {| data_store :=
            {[ "carol"%string :=
                 {| password_salt := "AwoRGB8mLTQ7QklQV15lbA==";
                    password_hash := "cHcxAwoRGB8mLTQ7QklQV15lbAAAAAAAAAAAAAAAAAA=";
                    entries := [e_first; e_second; e_third] |} ]};
          failed_attempts := 0;
          authorized := true;
          current_user := "carol" |};
     data_file := Absent;
     disk := Writable;
     entropy := sim_entropy;
     clock := 1762214400 |}.

(** ** Vocabulary of the further statements *)

(** A stored salt that [urlsafe_b64decode] accepts. *)
Definition decodable (s : string) : Prop := ∃ bs, urlsafe_b64decode s = B64Ok bs.

Definition decodable_account (acct : account) : Prop :=
  decodable (password_salt acct)
  ∧ Forall (λ e, decodable (entry_salt e)) (entries acct).

Definition decodable_store (d : gmap string account) : Prop :=
  ∀ u acct, d !! u = Some acct → decodable_account acct.

(** A world in which no handler meets bad data or a failing write: whoever
    is logged in has a record, every stored salt decodes, the clock is a
    64-bit time and the backing file can be written. *)
Definition healthy (w : world) : Prop :=
  current_user_known w ∧ decodable_store (data_store (session w)) ∧ clock w < 2 ^ 64
  ∧ disk w = Writable.

(** A run that ended normally or in [st.rerun()]. *)
Definition finished {A} (r : result A) : Prop :=
  match r with
  | Ok _ => True
  | Raise e => e = RerunException
  end.

(** The backing file holds the document of the in-memory store. *)
Definition file_in_sync {jsonlib : JsonLib} (w : world) : Prop :=
  ∃ r, data_file w = Present r (store_document (data_store (session w))).

(** The world a registration of [username] with [password] leaves when the
    store can be saved. *)
Definition registered {kdf : KdfLib} {jsonlib : JsonLib} (username password : string)
    (w : world) : world :=
  let salt := urandom_bytes w 0 16 in
  let store' :=
    <[username := {| password_salt := b64_str salt;
                     password_hash := derived_key password salt;
                     entries := [] |}]> (data_store (session w)) in
  {| session := {| data_store := store';
                   failed_attempts := failed_attempts (session w);
                   authorized := true;
                   current_user := username |};
     data_file := file_write (store_document store') (data_file w);
     disk := disk w;
     entropy := λ i, entropy w (16 + i)%nat;
     clock := clock w |}.

(** The world an accepted login of [username] leaves when the store can be
    saved. *)
Definition logged_in {jsonlib : JsonLib} (username : string) (w : world) : world :=
  {| session := set_authorized true (set_current_user username (session w));
     data_file := file_write (store_document (data_store (session w))) (data_file w);
     disk := disk w;
     entropy := entropy w;
     clock := clock w |}.

(** The world a store of [data] under [passkey] leaves when the store can
    be saved. *)
Definition stored {kdf : KdfLib} {fernet : FernetLib} {jsonlib : JsonLib}
    (data passkey : string) (acct : account) (w : world) : world :=
  let store' :=
    <[current_user (session w) := add_entry (sealed_entry w data passkey) acct]>
      (data_store (session w)) in
  {| session := set_data_store store' (session w);
     data_file := file_write (store_document store') (data_file w);
     disk := disk w;
     entropy := λ i, entropy w (32 + i)%nat;
     clock := clock w |}.

(** The world the logout button leaves. *)
Definition logged_out (w : world) : world :=
  set_session (set_current_user "" (set_authorized false (session w))) w.

(** The exception [urlsafe_b64decode] ends in, if any. *)
Definition b64_error (r : b64_result) : option exn :=
  match r with
  | B64Ok _ => None
  | B64ValueError => Some ValueError
  | B64BinasciiError => Some BinasciiError
  end.

(** The results of pressing the buttons [cs] one after the other, one run
    of the script each, and the world at the end. *)
Fixpoint presses {kdf : KdfLib} {fernet : FernetLib} {jsonlib : JsonLib}
    (cs : list click) (w : world) : list (result unit) * world :=
  match cs with
  | [] => ([], w)
  | c :: rest =>
      let '(r, w1, _) := app_flow c w in
      let '(rs, w2) := presses rest w1 in
      (r :: rs, w2)
  end.

(** ** Further concrete worlds *)

(** ["dave"] is logged in; his salt and the salt of his one entry are not
    base64 text. *)
Definition e_bad : entry := {| encrypted_data := "CCCC"; entry_salt := "abcde" |}.

Definition w_bad : world :=
  {| session :=
       {| data_store :=
            {[ "dave"%string :=
                 {| password_salt := "a";
                    password_hash := "cHcxAwoRGB8mLTQ7QklQV15lbAAAAAAAAAAAAAAAAAA=";
                    entries := [e_bad] |} ]};
          failed_attempts := 0;
          authorized := true;
          current_user := "dave" |};
     data_file := Absent;
     disk := Writable;
     entropy := sim_entropy;
     clock := 1762214400 |}.

(** A session that claims a user the store does not know. *)
Definition w_lost : world :=
  {| session := {| data_store := ∅; failed_attempts := 0; authorized := true;
                   current_user := "erin" |};
     data_file := Absent;
     disk := Writable;
     entropy := sim_entropy;
     clock := 1762214400 |}.

(** A backing file cut off in the middle of a document. *)
Definition w_truncated : world :=
  set_data_file (Present true (str_encode "{ ")) w_fresh.

(** A first run whose backing file cannot be created. *)
Definition w_readonly : world := set_disk Unwritable w_fresh.

(** ["alice"] and ["bob"] are registered and nobody is logged in. *)
Definition w_out : world := logged_out w_two.

(** A server process whose only browser session is in that state. *)
Definition p_one : process :=
  {| sessions := [session w_out]; proc_file := data_file w_out;
     proc_disk := disk w_out; proc_entropy := entropy w_out;
     proc_clock := clock w_out |}.

(** The process after two refused logins in that session. *)
Definition p_refused : process :=
  process_of
    (run_session (kdf := sim_kdf) (fernet := sim_fernet) (jsonlib := sim_json) 0
       (ClickPage (Login "bob" "guess"))
       (process_of
          (run_session (kdf := sim_kdf) (fernet := sim_fernet) (jsonlib := sim_json) 0
             (ClickPage (Login "alice" "bad")) p_one))).

(** The process after a second browser session connected and loaded the
    store. *)
Definition p_second : process := connect (data_store (session w_out)) p_refused.

(** * Properties *)

(** ** Bytes, strings and base64 *)

Lemma byte_of_to_N (b : byte) : byte_of_N (Byte.to_N b) = b.
Proof.
  unfold byte_of_N. pose proof (Byte.to_N_bounded b) as Hb.
  rewrite N.mod_small by lia. now rewrite Byte.of_to_N.
Qed.

Lemma N_range_In (n : nat) (i : N) : i < N.of_nat n → In i (N_range n).
Proof.
  intros Hi. unfold N_range. apply in_map_iff. exists (N.to_nat i).
  split; [apply N2Nat.id|]. apply in_seq. lia.
Qed.

Lemma all_bytes_In (b : byte) : In b all_bytes.
Proof.
  unfold all_bytes. apply in_map_iff. exists (Byte.to_N b).
  split; [apply byte_of_to_N|]. apply N_range_In.
  pose proof (Byte.to_N_bounded b). lia.
Qed.

(** Exhaustive checks over one or two bytes, decided by evaluation. *)
Lemma forall_byte (P : byte → bool) :
  forallb P all_bytes = true → ∀ b, P b = true.
Proof. intros H b. eapply forallb_forall in H; [exact H|apply all_bytes_In]. Qed.

Lemma forall_byte2 (P : byte → byte → bool) :
  forallb (λ a, forallb (P a) all_bytes) all_bytes = true → ∀ a b, P a b = true.
Proof.
  intros H a b. apply (forall_byte (P a)). revert a. apply (forall_byte _ H).
Qed.

Lemma valid_utf8_ascii (bs : bytes) :
  forallb is_ascii bs = true → valid_utf8 bs = true.
Proof.
  induction bs as [|b bs IH]; [reflexivity|]. cbn [forallb valid_utf8].
  intros [Hb Hbs]%andb_prop. rewrite Hb. auto.
Qed.

Lemma bytes_decode_encode (s : string) :
  wf_str s → bytes_decode (str_encode s) = Some s.
Proof.
  unfold wf_str, bytes_decode, str_encode. intros ->.
  now rewrite string_of_list_byte_of_string.
Qed.

Lemma bytes_decode_ascii (bs : bytes) :
  forallb is_ascii bs = true → bytes_decode bs = Some (string_of_list_byte bs).
Proof. intros H. unfold bytes_decode. now rewrite valid_utf8_ascii. Qed.

Lemma str_encode_decode (bs : bytes) (s : string) :
  bytes_decode bs = Some s → str_encode s = bs.
Proof.
  unfold bytes_decode, str_encode. destruct (valid_utf8 bs); [|discriminate].
  intros [= <-]. apply list_byte_of_string_of_list_byte.
Qed.

Example urlsafe_b64encode_ex :
  urlsafe_b64encode (str_encode "hello?>") = str_encode "aGVsbG8_Pg==".
Proof. reflexivity. Qed.

Example urlsafe_b64decode_ex :
  urlsafe_b64decode "aGVsbG8_Pg==" = B64Ok (str_encode "hello?>").
Proof. reflexivity. Qed.

Example urlsafe_b64decode_bad : urlsafe_b64decode "abcde" = B64BinasciiError.
Proof. reflexivity. Qed.

Lemma digit_value (i : N) :
  i < 64 → Byte.eqb (digit i) BASE64_PAD = false ∧ table_a2b_base64 (digit i) = Some i.
Proof.
  intros Hi.
  assert (forallb (λ i, negb (Byte.eqb (digit i) BASE64_PAD)
                        && bool_decide (table_a2b_base64 (digit i) = Some i))
            (N_range 64) = true) as Hall by (vm_compute; reflexivity).
  eapply forallb_forall in Hall; [|apply (N_range_In 64); exact Hi].
  apply andb_prop in Hall as [H1 H2]. apply negb_true_iff in H1.
  apply bool_decide_eq_true in H2. auto.
Qed.

Lemma pad_translation :
  urlsafe_decode_translation (urlsafe_encode_translation BASE64_PAD) = BASE64_PAD.
Proof. reflexivity. Qed.

Lemma sextets_ok_all (a b : byte) : sextets_ok a b = true.
Proof. revert a b. apply forall_byte2. vm_compute. reflexivity. Qed.

Lemma byte_eqb_eq (a b : byte) : Byte.eqb a b = true → a = b.
Proof. apply Byte.byte_dec_bl. Qed.

Lemma sextet_facts (a b : byte) :
  sextet_hi a < 64 ∧ sextet_mid1 a b < 64 ∧ sextet_mid2 a b < 64 ∧ sextet_lo a < 64
  ∧ byte_of_N (N.lor (shl (sextet_hi a) 2) (shr (sextet_mid1 a b) 4)) = a
  ∧ N.land (sextet_mid1 a b) 15 = shr (Byte.to_N b) 4
  ∧ byte_of_N (N.lor (shl (shr (Byte.to_N a) 4) 4) (shr (sextet_mid2 a b) 2)) = a
  ∧ N.land (sextet_mid2 a b) 3 = shr (Byte.to_N b) 6
  ∧ byte_of_N (N.lor (shl (shr (Byte.to_N a) 6) 6) (sextet_lo a)) = a.
Proof.
  pose proof (sextets_ok_all a b) as H. unfold sextets_ok in H.
  repeat (apply andb_prop in H as [H ?]).
  repeat match goal with
         | H : (_ <? _) = true |- _ => apply N.ltb_lt in H
         | H : (_ =? _) = true |- _ => apply N.eqb_eq in H
         | H : Byte.eqb _ _ = true |- _ => apply byte_eqb_eq in H
         end.
  tauto.
Qed.

(** One step of the loop on a digit, for each position in the group. *)
Lemma a2b_loop_digit (i : N) (rest : bytes) (q l p : N) (out : bytes) :
  i < 64 →
  a2b_loop (digit i :: rest) q l p out =
    if q =? 0 then a2b_loop rest 1 i 0 out
    else if q =? 1 then
      a2b_loop rest 2 (N.land i 15) 0 (out ++ [byte_of_N (N.lor (shl l 2) (shr i 4))])
    else if q =? 2 then
      a2b_loop rest 3 (N.land i 3) 0 (out ++ [byte_of_N (N.lor (shl l 4) (shr i 2))])
    else a2b_loop rest 0 0 0 (out ++ [byte_of_N (N.lor (shl l 6) i)]).
Proof.
  intros Hi. destruct (digit_value i Hi) as [Hpad Hval].
  cbn [a2b_loop]. now rewrite Hpad, Hval.
Qed.

(** A full group of three bytes decodes back to the three bytes. *)
Lemma a2b_loop_group (a b c : byte) (rest out : bytes) :
  a2b_loop (digit (sextet_hi a) :: digit (sextet_mid1 a b)
            :: digit (sextet_mid2 b c) :: digit (sextet_lo c) :: rest) 0 0 0 out
  = a2b_loop rest 0 0 0 (out ++ [a; b; c]).
Proof.
  destruct (sextet_facts a b) as (H1 & H2 & _ & _ & E1 & E2 & _).
  destruct (sextet_facts b c) as (_ & _ & H3 & _ & _ & _ & E3 & E4 & _).
  destruct (sextet_facts c c) as (_ & _ & _ & H4 & _ & _ & _ & _ & E5).
  rewrite !a2b_loop_digit by assumption. cbn [N.eqb Pos.eqb].
  rewrite E1, E2, E3, E4, E5. now rewrite <- !app_assoc.
Qed.

Lemma b2a_base64_group (a b c : byte) (rest : bytes) :
  map urlsafe_decode_translation (urlsafe_b64encode (a :: b :: c :: rest))
  = digit (sextet_hi a) :: digit (sextet_mid1 a b) :: digit (sextet_mid2 b c)
    :: digit (sextet_lo c)
    :: map urlsafe_decode_translation (urlsafe_b64encode rest).
Proof. reflexivity. Qed.

Lemma b2a_base64_tail1 (a : byte) :
  map urlsafe_decode_translation (urlsafe_b64encode [a])
  = [digit (sextet_hi a); digit (sextet_mid1 a x00); BASE64_PAD; BASE64_PAD].
Proof.
  unfold sextet_mid1. change (shr (Byte.to_N x00) 4) with 0.
  rewrite N.lor_0_r. reflexivity.
Qed.

Lemma b2a_base64_tail2 (a b : byte) :
  map urlsafe_decode_translation (urlsafe_b64encode [a; b])
  = [digit (sextet_hi a); digit (sextet_mid1 a b); digit (sextet_mid2 b x00);
     BASE64_PAD].
Proof.
  unfold sextet_mid2. change (shr (Byte.to_N x00) 6) with 0.
  rewrite N.lor_0_r. reflexivity.
Qed.

Lemma a2b_loop_encoded (bs : bytes) :
  (∀ out, a2b_loop (map urlsafe_decode_translation (urlsafe_b64encode bs)) 0 0 0 out
          = Some (out ++ bs))
  ∧ (∀ a out,
        a2b_loop (map urlsafe_decode_translation (urlsafe_b64encode (a :: bs))) 0 0 0 out
        = Some (out ++ a :: bs))
  ∧ (∀ a b out,
        a2b_loop (map urlsafe_decode_translation (urlsafe_b64encode (a :: b :: bs))) 0 0 0 out
        = Some (out ++ a :: b :: bs)).
Proof.
  induction bs as [|c bs (IH0 & IH1 & IH2)].
  - split; [|split].
    + intros out. cbn. now rewrite app_nil_r.
    + intros a out.
      rewrite b2a_base64_tail1.
      destruct (sextet_facts a x00) as (H1 & H2 & _ & _ & E1 & _).
      rewrite !a2b_loop_digit by assumption. cbn. now rewrite E1.
    + intros a b out.
      rewrite b2a_base64_tail2.
      destruct (sextet_facts a b) as (H1 & H2 & _ & _ & E1 & E2 & _).
      destruct (sextet_facts b x00) as (_ & _ & H3 & _ & _ & _ & E3 & _).
      rewrite !a2b_loop_digit by assumption. cbn [N.eqb Pos.eqb].
      rewrite E1, E2, E3. cbn. now rewrite <- app_assoc.
  - split; [|split].
    + intros out. apply IH1.
    + intros a out. apply IH2.
    + intros a b out. rewrite b2a_base64_group, a2b_loop_group, IH0.
      now rewrite <- app_assoc.
Qed.

(** [urlsafe_b64decode(urlsafe_b64encode(s)) == s], on bytes. *)
Lemma urlsafe_b64decode_bytes_encode (bs : bytes) :
  urlsafe_b64decode_bytes (urlsafe_b64encode bs) = Some bs.
Proof. apply (a2b_loop_encoded bs). Qed.

(** The output of the encoder is ASCII. *)
Lemma b2a_ascii (i : N) : is_ascii (urlsafe_encode_translation (b2a i)) = true.
Proof.
  destruct (N.lt_ge_cases i 64) as [Hi|Hi].
  - assert (forallb (λ i, is_ascii (urlsafe_encode_translation (b2a i)))
              (N_range 64) = true) as Hall by (vm_compute; reflexivity).
    eapply forallb_forall in Hall; [exact Hall|apply (N_range_In 64); exact Hi].
  - unfold b2a. rewrite nth_overflow; [reflexivity|].
    change (length table_b2a_base64) with 64%nat. lia.
Qed.

Lemma urlsafe_b64encode_ascii (bs : bytes) :
  forallb is_ascii (urlsafe_b64encode bs) = true.
Proof.
  cut ((forallb is_ascii (urlsafe_b64encode bs) = true)
       ∧ (∀ a, forallb is_ascii (urlsafe_b64encode (a :: bs)) = true)
       ∧ (∀ a b, forallb is_ascii (urlsafe_b64encode (a :: b :: bs)) = true)).
  { tauto. }
  induction bs as [|c bs (IH0 & IH1 & IH2)].
  - repeat split; intros; cbn -[b2a]; now rewrite ?b2a_ascii.
  - repeat split; intros; auto.
    change (urlsafe_b64encode (a :: b :: c :: bs))
      with (urlsafe_encode_translation (b2a (sextet_hi a))
            :: urlsafe_encode_translation (b2a (sextet_mid1 a b))
            :: urlsafe_encode_translation (b2a (sextet_mid2 b c))
            :: urlsafe_encode_translation (b2a (sextet_lo c))
            :: urlsafe_b64encode bs).
    cbn [forallb]. now rewrite !b2a_ascii, IH0.
Qed.

Lemma bytes_decode_b64 (bs : bytes) :
  bytes_decode (urlsafe_b64encode bs) = Some (b64_str bs).
Proof. apply bytes_decode_ascii, urlsafe_b64encode_ascii. Qed.

(** [urlsafe_b64decode(urlsafe_b64encode(s).decode()) == s]. *)
Lemma urlsafe_b64decode_encode (bs : bytes) :
  urlsafe_b64decode (b64_str bs) = B64Ok bs.
Proof.
  unfold urlsafe_b64decode, b64_str, str_encode.
  rewrite list_byte_of_string_of_list_byte, urlsafe_b64encode_ascii.
  now rewrite urlsafe_b64decode_bytes_encode.
Qed.

(** ** Running the handlers *)

Ltac prim :=
  unfold st_rerun, generate_salt, cipher_encrypt;
  unfold emit, raise, get_session, modify_session, os_urandom, time_time,
    save_data, mret, M_ret, ret.

Ltac tidy :=
  cbv beta iota zeta;
  cbn [app session data_file disk entropy clock set_session set_data_file set_disk
       set_entropy data_store failed_attempts authorized current_user set_data_store
       set_failed_attempts set_authorized set_current_user].

Ltac prims :=
  unfold press, login_page, store_data_page, retrieve_data_page, decrypt_entry,
    load_data, json_load, os_path_exists, open_read,
    derive_key, pbkdf2_hmac, decode, b64decode, Fernet, cipher_decrypt,
    try_except_all, try_except.

Section properties.
Context {kdf : KdfLib} {fernet : FernetLib} {jsonlib : JsonLib}.

(** Running a bind: the continuation runs in the world the first part left,
    and the traces are joined. *)
Lemma bind_run {A B} (m : M A) (k : A → M B) (w : world) :
  (m ≫= k) w =
    match m w with
    | (Ok a, w1, t1) => let '(r, w2, t2) := k a w1 in (r, w2, t1 ++ t2)
    | (Raise e, w1, t1) => (Raise e, w1, t1)
    end.
Proof. reflexivity. Qed.

Lemma guard_passes (a b : string) :
  a ≠ "" → b ≠ "" → (a =? "")%string || (b =? "")%string = false.
Proof. intros Ha Hb. apply orb_false_intro; apply String.eqb_neq; assumption. Qed.

Lemma guard_blocks (a b : string) :
  a = "" ∨ b = "" → (a =? "")%string || (b =? "")%string = true.
Proof. intros [-> | ->]; [reflexivity|apply orb_true_r]. Qed.

(** [derive_key] with the default count never raises, leaves the world
    alone and records its one derivation. *)
Lemma derive_key_run (password : string) (salt : bytes) (w : world) :
  derive_key password salt None w
  = (Ok (derived_key password salt), w, [kdf_call password salt]).
Proof.
  unfold derive_key. rewrite bind_run.
  change (pbkdf2_hmac (str_encode password) salt (default PBKDF2_ITERATIONS None) w)
    with (Ok (raw_key password salt), w, [kdf_call password salt]).
  cbv beta iota. unfold decode. rewrite bytes_decode_b64. reflexivity.
Qed.

Lemma decode_b64_run (bs : bytes) (w : world) :
  decode (urlsafe_b64encode bs) w = (Ok (b64_str bs), w, []).
Proof. unfold decode. now rewrite bytes_decode_b64. Qed.

Lemma b64decode_run (s : string) (bs : bytes) (w : world) :
  urlsafe_b64decode s = B64Ok bs → b64decode s w = (Ok bs, w, []).
Proof. unfold b64decode. now intros ->. Qed.

(** The text [derive_key] returns is always accepted as a Fernet key. *)
Lemma Fernet_run `{!KdfLaws} (password : string) (salt : bytes) (w : world) :
  Fernet (derived_key password salt) w = (Ok (raw_key password salt), w, []).
Proof.
  unfold Fernet, derived_key. rewrite urlsafe_b64decode_encode.
  unfold raw_key. rewrite pbkdf2_length by (unfold PBKDF2_ITERATIONS, MAX_ITERATIONS; lia).
  reflexivity.
Qed.

Lemma urandom_bytes_length (w : world) (skip n : nat) :
  length (urandom_bytes w skip n) = n.
Proof. unfold urandom_bytes. now rewrite length_map, length_seq. Qed.

(** [find_entry] returns the first entry whose ciphertext is the search
    string, and nothing when there is none. *)
Lemma find_entry_none (es : list entry) (c : string) :
  (∀ e, e ∈ es → encrypted_data e ≠ c) → find_entry es c = None.
Proof.
  induction es as [|e es IH]; [reflexivity|]. intros Hall. cbn [find_entry].
  destruct (String.eqb_spec (encrypted_data e) c) as [Heq|Hne].
  - exfalso. apply (Hall e); [left|exact Heq].
  - apply IH. intros e' He'. apply Hall. now right.
Qed.

Lemma find_entry_first (es : list entry) (c : string) (i : nat) (e : entry) :
  es !! i = Some e → encrypted_data e = c →
  (∀ j e', (j < i)%nat → es !! j = Some e' → encrypted_data e' ≠ c) →
  find_entry es c = Some e.
Proof.
  revert i. induction es as [|x es IH]; intros i Hi Hc Hbefore; [discriminate|].
  cbn [find_entry]. destruct i as [|i].
  - injection Hi as ->. now rewrite (proj2 (String.eqb_eq _ _) Hc).
  - destruct (String.eqb_spec (encrypted_data x) c) as [Heq|Hne].
    + exfalso. apply (Hbefore 0%nat x); [lia|reflexivity|exact Heq].
    + apply (IH i); [exact Hi|exact Hc|].
      intros j e' Hj He'. apply (Hbefore (S j) e'); [lia|exact He'].
Qed.

Lemma find_entry_Some (es : list entry) (c : string) (e : entry) :
  find_entry es c = Some e →
  ∃ i, es !! i = Some e ∧ encrypted_data e = c
       ∧ ∀ j e', (j < i)%nat → es !! j = Some e' → encrypted_data e' ≠ c.
Proof.
  induction es as [|x es IH]; [discriminate|]. cbn [find_entry].
  destruct (String.eqb_spec (encrypted_data x) c) as [Heq|Hne].
  - intros [= <-]. exists 0%nat. repeat split; [exact Heq|]. intros j e' Hj. lia.
  - intros Hf. destruct (IH Hf) as (i & Hi & Hc & Hbefore).
    exists (S i). repeat split; [exact Hi|exact Hc|].
    intros [|j] e' Hj He'.
    + injection He' as <-. exact Hne.
    + apply (Hbefore j e'); [lia|exact He'].
Qed.

Lemma find_entry_app_new (es : list entry) (e : entry) :
  (∀ e', e' ∈ es → encrypted_data e' ≠ encrypted_data e) →
  find_entry (es ++ [e]) (encrypted_data e) = Some e.
Proof.
  induction es as [|x es IH]; intros Hall; cbn [app find_entry].
  - now rewrite String.eqb_refl.
  - destruct (String.eqb_spec (encrypted_data x) (encrypted_data e)) as [Heq|Hne].
    + exfalso. apply (Hall x); [left|exact Heq].
    + apply IH. intros e' He'. apply Hall. now right.
Qed.


Ltac split_scrutinee :=
  match goal with
  | |- context [match ?x with _ => _ end] =>
      lazymatch x with
      | context [match _ with _ => _ end] => fail
      | context [@mbind] => fail
      | _ => destruct x eqn:?
      end
  end.

Ltac run1 := first [rewrite bind_run | rewrite derive_key_run | rewrite decode_b64_run]; tidy.
Ltac run := prim; tidy; repeat run1.
Ltac crunch := repeat first [ progress tidy | rewrite bind_run | split_scrutinee ].

(** *** Reachable worlds *)

Lemma app_flow_keeps_current_user_known (c : click) (w : world) :
  current_user_known w → current_user_known (world_of (app_flow c w)).
Proof.
  unfold current_user_known, app_flow. intros Hinv.
  destruct c as [[u p|d k|ci k]|]; unfold logout; prims; prim; crunch;
    unfold world_of; cbn [fst snd]; tidy; intros Ha; try discriminate Ha.
  all: try congruence.
  all: try (rewrite lookup_insert_eq; eauto; fail).
  all: try (apply Hinv; first [reflexivity | assumption]).
  all: try match goal with
           | H : ?m !! ?k = Some _ |- is_Some (?m !! ?k) => rewrite H; eauto
           end.
  all: destruct (Hinv eq_refl) as [? ?]; discriminate.
Qed.

(** X1.  In every world the script can reach (a first run, whatever was
    loaded, followed by any button presses), whoever is logged in has a
    record in the store: the dashboard, store and retrieve pages are only
    ever run for a user who has one, and the [KeyError] of their lookup is
    never raised from a reachable world. *)
Lemma reachable_current_user_known (w : world) :
  reachable w → current_user_known w.
Proof.
  induction 1 as [loaded f e t|c w _ IH].
  - intros Ha. discriminate Ha.
  - apply app_flow_keeps_current_user_known, IH.
Qed.

(** *** Missing fields *)

(** C6.  Whenever one of the two fields of a page is empty (username or
    password on the login page, data or passkey on the store page, ciphertext
    or passkey on the retrieve page), pressing the button shows the page's
    missing-fields message and does nothing else: the trace is that one
    message, so no key derivation was run, and the world the handler leaves is
    the one it started in, failed-attempt counter, store and file included. *)
Theorem missing_fields_rejected (w : world) (a b : string) :
  a = "" ∨ b = "" →
  login_page true a b w = (Ok tt, w, [st_error "Please fill all fields"])
  ∧ store_data_page true a b w = (Ok tt, w, [st_error "All fields required"])
  ∧ retrieve_data_page true a b w = (Ok tt, w, [st_error "All fields required"]).
Proof.
  intros Hab. unfold login_page, store_data_page, retrieve_data_page.
  rewrite (guard_blocks a b Hab). repeat split.
Qed.

(** *** Retrieval *)

(** C9.  The retrieve page is read-only: whatever the session state, the
    searched ciphertext and the passkey, and whether the button was pressed,
    the handler leaves the world it started in.  The in-memory store is
    unchanged and nothing is written to the backing file, whether the form
    is refused, the user or the entry is not found, an exception escapes,
    decryption fails or decryption succeeds. *)
Theorem retrieve_is_read_only (clicked : bool) (encrypted_input passkey : string)
    (w : world) :
  world_of (retrieve_data_page clicked encrypted_input passkey w) = w.
Proof. prims; prim; crunch; reflexivity. Qed.

(** Everything that can fail inside the [try] ends in the same message. *)
Lemma decrypt_entry_run `{!KdfLaws} (w : world) (e : entry) (salt : bytes)
    (encrypted_input passkey : string) :
  urlsafe_b64decode (entry_salt e) = B64Ok salt →
  decrypt_entry e encrypted_input passkey w
  = (Ok tt, w,
     kdf_call passkey salt ::
     match fernet_decrypt (raw_key passkey salt) (str_encode encrypted_input)
           ≫= bytes_decode with
     | Some text => [st_success "Decrypted successfully!";
                     st_text_area "Decrypted Data" text]
     | None => [st_error "Invalid passkey or corrupted data"]
     end).
Proof.
  intros Hsalt. unfold decrypt_entry. run. rewrite (b64decode_run _ _ _ Hsalt). run.
  unfold try_except_all. run. rewrite Fernet_run. tidy. unfold cipher_decrypt.
  destruct (fernet_decrypt (raw_key passkey salt) (str_encode encrypted_input))
    as [plain|]; [|reflexivity].
  run. unfold decode. cbn [mbind option_bind].
  destruct (bytes_decode plain) as [text|]; reflexivity.
Qed.

Lemma retrieve_not_found_run (w : world) (acct : account)
    (encrypted_input passkey : string) :
  encrypted_input ≠ "" → passkey ≠ "" →
  data_store (session w) !! current_user (session w) = Some acct →
  find_entry (entries acct) encrypted_input = None →
  retrieve_data_page true encrypted_input passkey w
  = (Ok tt, w, [st_error "Data not found"]).
Proof.
  intros Hc Hp Hacct Hfind. unfold retrieve_data_page.
  rewrite (guard_passes _ _ Hc Hp). run. rewrite Hacct, Hfind. reflexivity.
Qed.

Lemma retrieve_found_run (w : world) (acct : account) (e : entry)
    (encrypted_input passkey : string) :
  encrypted_input ≠ "" → passkey ≠ "" →
  data_store (session w) !! current_user (session w) = Some acct →
  find_entry (entries acct) encrypted_input = Some e →
  retrieve_data_page true encrypted_input passkey w
  = decrypt_entry e encrypted_input passkey w.
Proof.
  intros Hc Hp Hacct Hfind. unfold retrieve_data_page.
  rewrite (guard_passes _ _ Hc Hp). run. rewrite Hacct, Hfind. tidy.
  now destruct (decrypt_entry e encrypted_input passkey w) as [[r w'] t].
Qed.

(** C10.  Once the form is accepted and the current user's record is at
    hand, the entry that is decrypted is the one at the smallest index whose
    [encrypted_data] equals the search string, so of two entries with the
    same ciphertext the earlier-appended one is used; when no entry matches
    the page shows ["Data not found"] and nothing else, so no key was
    derived. *)
Theorem lookup_first_match (w : world) (acct : account) (encrypted_input passkey : string) :
  encrypted_input ≠ "" → passkey ≠ "" →
  data_store (session w) !! current_user (session w) = Some acct →
  ((∀ e, e ∈ entries acct → encrypted_data e ≠ encrypted_input) →
     retrieve_data_page true encrypted_input passkey w
     = (Ok tt, w, [st_error "Data not found"]))
  ∧ (∀ i e,
       entries acct !! i = Some e → encrypted_data e = encrypted_input →
       (∀ j e', (j < i)%nat → entries acct !! j = Some e' →
                encrypted_data e' ≠ encrypted_input) →
       retrieve_data_page true encrypted_input passkey w
       = decrypt_entry e encrypted_input passkey w).
Proof.
  intros Hc Hp Hacct. split.
  - intros Hnone. apply (retrieve_not_found_run w acct); auto using find_entry_none.
  - intros i e Hi He Hbefore. apply (retrieve_found_run w acct); auto.
    exact (find_entry_first _ _ i e Hi He Hbefore).
Qed.

(** A passkey of fewer than 64 bytes and the same passkey followed by a
    NUL character derive the same key. *)
Lemma str_encode_app (s1 s2 : string) :
  str_encode (s1 +:+ s2) = str_encode s1 ++ str_encode s2.
Proof.
  unfold str_encode, list_byte_of_string.
  induction s1 as [|a s1 IH]; [reflexivity|].
  simpl. now rewrite IH.
Qed.

Lemma padded_same_key `{!KdfLaws} (passkey : string) (salt : bytes) :
  (length (str_encode passkey) < 64)%nat →
  raw_key (padded passkey) salt = raw_key passkey salt.
Proof.
  intros Hlen. unfold raw_key, padded. rewrite str_encode_app.
  exact (pbkdf2_key_padding _ _ _ Hlen).
Qed.

Lemma raw_key_length `{!KdfLaws} (passkey : string) (salt : bytes) :
  length (raw_key passkey salt) = 32%nat.
Proof. apply pbkdf2_length; unfold PBKDF2_ITERATIONS, MAX_ITERATIONS; lia. Qed.

(** C2, as amended.  For a non-empty search string and a non-empty passkey
    and the entry the page finds:

    - whatever goes wrong inside the [try] ends in the one message
      ["Invalid passkey or corrupted data"], with no plaintext and the
      world untouched: Fernet rejecting the token, for whatever reason, and
      decrypted bytes that are not text are not told apart; otherwise the
      page shows exactly the plaintext Fernet authenticated;
    - a stored ciphertext that is not, once base64-decoded, a token made
      under the key derived from the passkey (a corrupted or forged one)
      gets that message;
    - for an entry sealed under [p1] and opened with [passkey]: that same
      message whenever the two derived keys differ in their signing half,
      and the original plaintext whenever the derived keys are equal,
      which distinct passkeys can bring about ([padded_same_key]). *)
Theorem decrypt_failure_is_generic `{!KdfLaws, !FernetLaws} (w : world) (acct : account)
    (encrypted_input passkey : string) :
  encrypted_input ≠ "" → passkey ≠ "" →
  data_store (session w) !! current_user (session w) = Some acct →
  (∀ e salt,
     find_entry (entries acct) encrypted_input = Some e →
     urlsafe_b64decode (entry_salt e) = B64Ok salt →
     retrieve_data_page true encrypted_input passkey w
     = (Ok tt, w,
        kdf_call passkey salt ::
        match fernet_decrypt (raw_key passkey salt) (str_encode encrypted_input)
              ≫= bytes_decode with
        | Some text => [st_success "Decrypted successfully!";
                        st_text_area "Decrypted Data" text]
        | None => [st_error "Invalid passkey or corrupted data"]
        end))
  ∧ (∀ e salt,
       find_entry (entries acct) encrypted_input = Some e →
       urlsafe_b64decode (entry_salt e) = B64Ok salt →
       (∀ iv time data,
          length iv = 16%nat → time < 2 ^ 64 →
          urlsafe_b64decode_bytes (str_encode encrypted_input)
          ≠ urlsafe_b64decode_bytes
              (fernet_encrypt (raw_key passkey salt) iv time data)) →
       retrieve_data_page true encrypted_input passkey w
       = (Ok tt, w,
          [kdf_call passkey salt; st_error "Invalid passkey or corrupted data"]))
  ∧ (∀ (w0 : world) (data p1 : string),
       wf_str data → clock w0 < 2 ^ 64 →
       encrypted_input = encrypted_data (sealed_entry w0 data p1) →
       find_entry (entries acct) encrypted_input = Some (sealed_entry w0 data p1) →
       let salt := urandom_bytes w0 0 16 in
       (take 16 (raw_key passkey salt) ≠ take 16 (raw_key p1 salt) →
        retrieve_data_page true encrypted_input passkey w
        = (Ok tt, w,
           [kdf_call passkey salt; st_error "Invalid passkey or corrupted data"]))
       ∧ (raw_key passkey salt = raw_key p1 salt →
          retrieve_data_page true encrypted_input passkey w
          = (Ok tt, w,
             [kdf_call passkey salt; st_success "Decrypted successfully!";
              st_text_area "Decrypted Data" data]))).
Proof.
  intros Hc Hp Hacct.
  assert (∀ e salt,
            find_entry (entries acct) encrypted_input = Some e →
            urlsafe_b64decode (entry_salt e) = B64Ok salt →
            retrieve_data_page true encrypted_input passkey w
            = (Ok tt, w,
               kdf_call passkey salt ::
               match fernet_decrypt (raw_key passkey salt) (str_encode encrypted_input)
                     ≫= bytes_decode with
               | Some text => [st_success "Decrypted successfully!";
                               st_text_area "Decrypted Data" text]
               | None => [st_error "Invalid passkey or corrupted data"]
               end)) as Hfound.
  { intros e salt Hfind Hsalt.
    rewrite (retrieve_found_run w acct e _ _ Hc Hp Hacct Hfind).
    exact (decrypt_entry_run w e salt encrypted_input passkey Hsalt). }
  split; [exact Hfound|]. split.
  - intros e salt Hfind Hsalt Hforged. rewrite (Hfound e salt Hfind Hsalt).
    destruct (fernet_decrypt (raw_key passkey salt) (str_encode encrypted_input))
      as [data|] eqn:Hdec; [|reflexivity].
    destruct (fernet_authentic _ _ _ (raw_key_length passkey salt) Hdec)
      as (iv & time & Liv & Htime & Hsame).
    now destruct (Hforged iv time data Liv Htime).
  - intros w0 data p1 Hwf Hclock Hinput Hfind salt.
    pose proof (urandom_bytes_length w0 16 16) as Liv.
    pose proof (raw_key_length p1 salt) as Lkey.
    pose proof (fernet_decrypt_encrypt _ _ _ (str_encode data) Lkey Liv Hclock) as Hdec.
    change (fernet_decrypt (raw_key p1 salt) (sealed_token w0 data p1)
            = Some (str_encode data)) in Hdec.
    assert (str_encode encrypted_input = sealed_token w0 data p1) as Htoken.
    { rewrite Hinput. apply list_byte_of_string_of_list_byte. }
    rewrite (Hfound _ salt Hfind (urlsafe_b64decode_encode _)), Htoken. split.
    + intros Hother. unfold sealed_token. fold salt.
      now rewrite (fernet_rejects_other_signing_key (raw_key p1 salt)
                     (raw_key passkey salt) _ _ (str_encode data) Lkey
                     (raw_key_length passkey salt) Liv Hclock Hother).
    + intros ->. rewrite Hdec. cbn [mbind option_bind].
      now rewrite (bytes_decode_encode _ Hwf).
Qed.

(** *** Iteration count *)

(** C8.  The iteration count is the constant 100000, which is at least
    100000, and every key derivation any handler runs, whatever the inputs
    typed into the page and whatever the state, uses exactly that count:
    the verifier at registration and at login, the entry key when sealing
    and when opening. *)
Theorem iterations_fixed :
  PBKDF2_ITERATIONS = 100000
  ∧ 100000 ≤ PBKDF2_ITERATIONS
  ∧ ∀ a w, Forall uses_fixed_iterations (trace_of (press a w)).
Proof.
  split; [reflexivity|]. split; [unfold PBKDF2_ITERATIONS, MAX_ITERATIONS; lia|].
  intros a w. destruct a; prims; prim; crunch;
    unfold trace_of; cbn [snd app]; repeat constructor.
Qed.


(** *** Login and registration *)

(** A refused login: one derivation, the counter goes up by one, the
    message reports what is left of [MAX_FAILED_ATTEMPTS]. *)
Lemma rejected_login_run (w : world) (username password : string) (salt : bytes) :
  rejected_login w username password salt →
  login_page true username password w
  = (Ok tt, with_failed_attempts (failed_attempts (session w) + 1) w,
     [kdf_call password salt; invalid_credentials (failed_attempts (session w) + 1)]).
Proof.
  intros (Hu & Hp & acct & Hacct & Hsalt & Hne). unfold login_page.
  rewrite (guard_passes _ _ Hu Hp). run. rewrite Hacct. run.
  rewrite (b64decode_run _ _ _ Hsalt). run.
  rewrite (proj2 (String.eqb_neq _ _) Hne). cbn [negb]. run. reflexivity.
Qed.

(** [save_data] when the file can be written, and what it leaves alone
    when it cannot. *)
Lemma save_data_run (data : gmap string account) (w : world) :
  disk w = Writable →
  save_data data w
  = (Ok tt, set_data_file (file_write (store_document data) (data_file w)) w, []).
Proof. intros Hdisk. unfold save_data. now rewrite Hdisk. Qed.

Lemma save_data_frame (data : gmap string account) (w : world) :
  session (world_of (save_data data w)) = session w
  ∧ disk (world_of (save_data data w)) = disk w
  ∧ entropy (world_of (save_data data w)) = entropy w
  ∧ clock (world_of (save_data data w)) = clock w
  ∧ trace_of (save_data data w) = [].
Proof.
  unfold save_data, world_of, trace_of.
  destruct (disk w) as [| |room] eqn:Hdisk; cbn; rewrite ?Hdisk; auto.
  destruct (length (store_document data) <=? room)%nat; cbn; rewrite ?Hdisk; auto.
Qed.

(** An accepted login of an existing user: the store is saved as it is. *)
Lemma accepted_login_run (w : world) (username password : string) (acct : account)
    (salt : bytes) :
  username ≠ "" → password ≠ "" →
  data_store (session w) !! username = Some acct →
  urlsafe_b64decode (password_salt acct) = B64Ok salt →
  derived_key password salt = password_hash acct →
  disk w = Writable →
  login_page true username password w
  = (Raise RerunException,
     {| session := set_authorized true (set_current_user username (session w));
        data_file := file_write (store_document (data_store (session w))) (data_file w);
        disk := disk w;
        entropy := entropy w;
        clock := clock w |},
     [kdf_call password salt]).
Proof.
  intros Hu Hp Hacct Hsalt Heq Hdisk. unfold login_page.
  rewrite (guard_passes _ _ Hu Hp). run. rewrite Hacct. run.
  rewrite (b64decode_run _ _ _ Hsalt). run.
  rewrite (proj2 (String.eqb_eq _ _) Heq). cbn [negb]. run.
  rewrite Hdisk at 1. reflexivity.
Qed.

(** The session state a registration leaves, whether or not the store could
    be saved. *)
Lemma register_session (w : world) (username password : string) :
  username ≠ "" → password ≠ "" → data_store (session w) !! username = None →
  session (world_of (login_page true username password w))
  = {| data_store :=
         <[username := {| password_salt := b64_str (urandom_bytes w 0 16);
                          password_hash := derived_key password (urandom_bytes w 0 16);
                          entries := [] |}]> (data_store (session w));
       failed_attempts := failed_attempts (session w);
       authorized := true;
       current_user := username |}.
Proof.
  intros Hu Hp Hnone. unfold login_page. rewrite (guard_passes _ _ Hu Hp).
  run. rewrite Hnone. run.
  destruct (disk w) as [| |room]; [reflexivity..|].
  now destruct (length _ <=? room)%nat.
Qed.

(** No run of the script lowers the counter, the logout button and an
    accepted login included. *)
Lemma counter_never_reset (c : click) (w : world) :
  failed_attempts (session (world_of (app_flow c w))) = failed_attempts (session w)
  ∨ failed_attempts (session (world_of (app_flow c w)))
    = (failed_attempts (session w) + 1)%Z.
Proof.
  unfold app_flow. destruct c as [[u p|d k|ci k]|]; unfold logout;
    prims; prim; crunch; cbn; auto.
Qed.

(** The file a run leaves is the same whatever the counter was. *)
Lemma counter_not_persisted (c : click) (w : world) (n : Z) :
  data_file (world_of (app_flow c (with_failed_attempts n w)))
  = data_file (world_of (app_flow c w)).
Proof.
  unfold with_failed_attempts, app_flow.
  destruct c as [[u p|d k|ci k]|]; unfold logout; prims; prim; crunch; reflexivity.
Qed.

(** A new session starts its counter at zero and leaves the sessions the
    process already has as they are. *)
Lemma connect_counter (loaded : gmap string account) (p : process) :
  session_counter (length (sessions p)) (connect loaded p) = Some 0%Z
  ∧ ∀ j, (j < length (sessions p))%nat →
         session_counter j (connect loaded p) = session_counter j p.
Proof.
  unfold session_counter, connect. cbn [sessions]. split.
  - rewrite lookup_app_r by lia. now rewrite Nat.sub_diag.
  - intros j Hj. now rewrite lookup_app_l by exact Hj.
Qed.

(** A run in one session does not touch the counter of another. *)
Lemma run_session_other (i j : nat) (c : click) (p : process) :
  i ≠ j → session_counter j (process_of (run_session i c p)) = session_counter j p.
Proof.
  intros Hij. unfold session_counter, run_session, process_of.
  destruct (sessions p !! i) as [s|]; [|reflexivity].
  destruct (app_flow c (session_world p s)) as [[r w] t].
  cbn [fst snd process_after sessions]. now rewrite list_lookup_insert_ne.
Qed.

(** The login page is what the script shows while nobody is logged in. *)
Lemma app_flow_login (w : world) (username password : string) :
  authorized (session w) = false →
  app_flow (ClickPage (Login username password)) w = login_page true username password w.
Proof.
  intros Hauth. unfold app_flow. rewrite bind_run. unfold get_session. tidy.
  rewrite Hauth. now destruct (login_page true username password w) as [[r w'] t].
Qed.

(** C5, as amended.  A fresh session starts the counter at zero.  From a
    logged-out session whose counter is zero, three consecutive login
    attempts that the program refuses (for the same existing account or for
    different ones; the password filled in, its derived key different from
    the stored hash) bring the one counter of the session state to 1, 2
    and 3 and report 2, 1 and 0 attempts left, in that order.  No run of
    the script, whatever button is pressed, logout and accepted login
    included, lowers the counter, and the backing file a run leaves does
    not depend on it: the counter is never persisted.  The counter belongs
    to the browser session, not to the process: a session that connects to
    the running process starts at zero and leaves the counters of the
    other sessions alone, and a run in one session does not change the
    counter of another. *)
Theorem failed_attempts_counting (w0 : world) (u1 p1 u2 p2 u3 p3 : string)
    (s1 s2 s3 : bytes) :
  authorized (session w0) = false →
  failed_attempts (session w0) = 0%Z →
  rejected_login w0 u1 p1 s1 → rejected_login w0 u2 p2 s2 → rejected_login w0 u3 p3 s3 →
  (∀ loaded, failed_attempts (fresh_session loaded) = 0%Z)
  ∧ app_flow (ClickPage (Login u1 p1)) w0
    = (Ok tt, with_failed_attempts 1 w0,
       [kdf_call p1 s1; st_error "Invalid credentials. 2 attempts left"])
  ∧ app_flow (ClickPage (Login u2 p2)) (with_failed_attempts 1 w0)
    = (Ok tt, with_failed_attempts 2 w0,
       [kdf_call p2 s2; st_error "Invalid credentials. 1 attempts left"])
  ∧ app_flow (ClickPage (Login u3 p3)) (with_failed_attempts 2 w0)
    = (Ok tt, with_failed_attempts 3 w0,
       [kdf_call p3 s3; st_error "Invalid credentials. 0 attempts left"])
  ∧ (∀ c w,
       failed_attempts (session (world_of (app_flow c w))) = failed_attempts (session w)
       ∨ failed_attempts (session (world_of (app_flow c w)))
         = (failed_attempts (session w) + 1)%Z)
  ∧ (∀ c w n,
       data_file (world_of (app_flow c (with_failed_attempts n w)))
       = data_file (world_of (app_flow c w)))
  ∧ (∀ loaded p,
       session_counter (length (sessions p)) (connect loaded p) = Some 0%Z
       ∧ ∀ j, (j < length (sessions p))%nat →
              session_counter j (connect loaded p) = session_counter j p)
  ∧ (∀ i j c p,
       i ≠ j → session_counter j (process_of (run_session i c p)) = session_counter j p).
Proof.
  intros Hauth H0 R1 R2 R3.
  split; [reflexivity|]. split; [|split; [|split; [|split; [|split; [|split]]]]].
  - rewrite (app_flow_login _ _ _ Hauth), (rejected_login_run _ _ _ _ R1), H0.
    reflexivity.
  - rewrite (app_flow_login (with_failed_attempts 1 w0) _ _ Hauth).
    rewrite (rejected_login_run (with_failed_attempts 1 w0) u2 p2 s2 R2). reflexivity.
  - rewrite (app_flow_login (with_failed_attempts 2 w0) _ _ Hauth).
    rewrite (rejected_login_run (with_failed_attempts 2 w0) u3 p3 s3 R3). reflexivity.
  - exact counter_never_reset.
  - exact counter_not_persisted.
  - exact connect_counter.
  - exact run_session_other.
Qed.

(** C3, as amended.  For a non-empty username that is not in the store and
    a non-empty password, the login page creates the account (a 16-byte salt
    from [os.urandom], the key derived from password and salt as verifier,
    no entries) and logs the user in, whether or not the store can be
    saved; when it can, the store is saved and the script reruns.
    Whenever that account is later looked up under the same username, a
    password whose derived key differs from the verifier is refused with
    ["Invalid credentials"]: only the counter changes, the store and the
    file are untouched.  A password whose derived key equals the verifier
    is let in, and this equality of derived keys is the only test the code
    makes. *)
Theorem register_then_reject (w : world) (username password : string) :
  username ≠ "" → password ≠ "" → data_store (session w) !! username = None →
  let salt := urandom_bytes w 0 16 in
  let acct := {| password_salt := b64_str salt;
                 password_hash := derived_key password salt;
                 entries := [] |} in
  let store' := <[username := acct]> (data_store (session w)) in
  length salt = 16%nat
  ∧ session (world_of (login_page true username password w))
    = {| data_store := store';
         failed_attempts := failed_attempts (session w);
         authorized := true;
         current_user := username |}
  ∧ (disk w = Writable →
     login_page true username password w
     = (Raise RerunException,
        {| session := {| data_store := store';
                         failed_attempts := failed_attempts (session w);
                         authorized := true;
                         current_user := username |};
           data_file := file_write (store_document store') (data_file w);
           disk := disk w;
           entropy := λ i, entropy w (16 + i)%nat;
           clock := clock w |},
        [kdf_call password salt; st_success "Account created! Logged in."]))
  ∧ ∀ (w2 : world) (acct2 : account) (password2 : string),
      data_store (session w2) !! username = Some acct2 →
      password_salt acct2 = password_salt acct →
      password_hash acct2 = password_hash acct →
      password2 ≠ "" →
      (derived_key password2 salt ≠ derived_key password salt →
       login_page true username password2 w2
       = (Ok tt, with_failed_attempts (failed_attempts (session w2) + 1) w2,
          [kdf_call password2 salt;
           invalid_credentials (failed_attempts (session w2) + 1)])
       ∧ data_store (session (with_failed_attempts (failed_attempts (session w2) + 1) w2))
         = data_store (session w2)
       ∧ data_file (with_failed_attempts (failed_attempts (session w2) + 1) w2)
         = data_file w2)
      ∧ (derived_key password2 salt = derived_key password salt →
         disk w2 = Writable →
         login_page true username password2 w2
         = (Raise RerunException,
            {| session := set_authorized true (set_current_user username (session w2));
               data_file :=
                 file_write (store_document (data_store (session w2))) (data_file w2);
               disk := disk w2;
               entropy := entropy w2;
               clock := clock w2 |},
            [kdf_call password2 salt])).
Proof.
  intros Hu Hp Hnone salt acct store'. split; [apply urandom_bytes_length|].
  split; [exact (register_session w username password Hu Hp Hnone)|]. split.
  - intros Hdisk. unfold login_page. rewrite (guard_passes _ _ Hu Hp). run.
    rewrite Hnone. run. rewrite Hdisk at 1. reflexivity.
  - intros w2 acct2 password2 Hacct2 Hsalt Hhash Hp2.
    assert (urlsafe_b64decode (password_salt acct2) = B64Ok salt) as Hdec
      by (rewrite Hsalt; apply urlsafe_b64decode_encode).
    split.
    + intros Hne. split; [|split; reflexivity].
      apply rejected_login_run. split; [exact Hu|]. split; [exact Hp2|].
      exists acct2. split; [exact Hacct2|]. split; [exact Hdec|].
      rewrite Hhash. exact Hne.
    + intros Heq Hdisk.
      apply (accepted_login_run w2 username password2 acct2 salt); auto.
      rewrite Hhash. exact Heq.
Qed.

(** *** Sealing and opening *)

(** The store page up to the point where the store is saved. *)
Lemma store_data_page_run `{!KdfLaws, !FernetLaws} (w : world) (acct : account)
    (data passkey : string) :
  data ≠ "" → passkey ≠ "" → clock w < 2 ^ 64 →
  data_store (session w) !! current_user (session w) = Some acct →
  let store' :=
    <[current_user (session w) := add_entry (sealed_entry w data passkey) acct]>
      (data_store (session w)) in
  store_data_page true data passkey w
  = let '(r, w', _) :=
      save_data store'
        (set_session (set_data_store store' (session w))
           (set_entropy (λ i, entropy w (32 + i)%nat) w)) in
    match r with
    | Ok _ => (Ok tt, w',
               [kdf_call passkey (urandom_bytes w 0 16);
                st_success "Data encrypted and saved!";
                st_code (encrypted_data (sealed_entry w data passkey))])
    | Raise e => (Raise e, w', [kdf_call passkey (urandom_bytes w 0 16)])
    end.
Proof.
  intros Hd Hp Hclock Hacct store'.
  pose proof (urandom_bytes_length w 16 16) as Liv.
  pose proof (raw_key_length passkey (urandom_bytes w 0 16)) as Lkey.
  pose proof (fernet_token_ascii _ _ _ (str_encode data) Lkey Liv Hclock) as Hascii.
  change (forallb is_ascii (sealed_token w data passkey) = true) in Hascii.
  unfold store_data_page. rewrite (guard_passes _ _ Hd Hp). run.
  change (map (entropy w) (seq 0 16)) with (urandom_bytes w 0 16).
  rewrite Fernet_run. run.
  change (fernet_encrypt _ _ _ _) with (sealed_token w data passkey).
  unfold decode at 1. rewrite (bytes_decode_ascii _ Hascii). run.
  rewrite Hacct. run.
  destruct (disk w) as [| |room]; [reflexivity..|].
  now destruct (length _ <=? room)%nat.
Qed.

(** C1, as amended.  For every non-empty well-formed plaintext and every
    non-empty passkey, the store page seals the plaintext (a 16-byte salt
    from [os.urandom], the key derived from passkey and salt, a Fernet
    token) and appends the entry to the current user's list, whether or not
    the store can be saved; when it can, the store is saved and the
    ciphertext shown.  Whenever the lookup of the retrieve page resolves
    that ciphertext to that entry, as it does right after storing when no
    earlier entry carries the same ciphertext, the retrieve page with the
    same passkey shows the original plaintext exactly. *)
Theorem seal_then_open `{!KdfLaws, !FernetLaws} (w : world) (acct : account)
    (data passkey : string) :
  data ≠ "" → passkey ≠ "" → wf_str data → clock w < 2 ^ 64 →
  data_store (session w) !! current_user (session w) = Some acct →
  let e := sealed_entry w data passkey in
  let store' := <[current_user (session w) := add_entry e acct]> (data_store (session w)) in
  length (urandom_bytes w 0 16) = 16%nat
  ∧ session (world_of (store_data_page true data passkey w))
    = set_data_store store' (session w)
  ∧ (disk w = Writable →
     store_data_page true data passkey w
     = (Ok tt,
        {| session := set_data_store store' (session w);
           data_file := file_write (store_document store') (data_file w);
           disk := disk w;
           entropy := λ i, entropy w (32 + i)%nat;
           clock := clock w |},
        [kdf_call passkey (urandom_bytes w 0 16);
         st_success "Data encrypted and saved!";
         st_code (encrypted_data e)]))
  ∧ (∀ w2 acct2,
       data_store (session w2) !! current_user (session w2) = Some acct2 →
       find_entry (entries acct2) (encrypted_data e) = Some e →
       retrieve_data_page true (encrypted_data e) passkey w2
       = (Ok tt, w2,
          [kdf_call passkey (urandom_bytes w 0 16);
           st_success "Decrypted successfully!";
           st_text_area "Decrypted Data" data]))
  ∧ ((∀ e', e' ∈ entries acct → encrypted_data e' ≠ encrypted_data e) →
     find_entry (entries (add_entry e acct)) (encrypted_data e) = Some e).
Proof.
  intros Hd Hp Hwf Hclock Hacct e store'.
  pose proof (urandom_bytes_length w 0 16) as Lsalt.
  pose proof (urandom_bytes_length w 16 16) as Liv.
  pose proof (raw_key_length passkey (urandom_bytes w 0 16)) as Lkey.
  pose proof (fernet_token_nonempty _ _ _ (str_encode data) Lkey Liv Hclock) as Hnonempty.
  pose proof (fernet_decrypt_encrypt _ _ _ (str_encode data) Lkey Liv Hclock) as Hdec.
  fold (sealed_token w data passkey) in Hnonempty, Hdec.
  pose proof (store_data_page_run w acct data passkey Hd Hp Hclock Hacct) as Hrun.
  cbv zeta in Hrun. fold e store' in Hrun.
  split; [exact Lsalt|]. split; [|split; [|split]].
  - rewrite Hrun.
    pose proof (save_data_frame store'
                  (set_session (set_data_store store' (session w))
                     (set_entropy (λ i, entropy w (32 + i)%nat) w))) as (Hs & _).
    destruct (save_data store' _) as [[[[]|err] w'] t]; exact Hs.
  - intros Hdisk. rewrite Hrun, save_data_run by exact Hdisk. reflexivity.
  - intros w2 acct2 Hacct2 Hfind.
    assert (encrypted_data e ≠ "") as Hc.
    { cbn [e sealed_entry encrypted_data]. intros Hempty.
      apply Hnonempty. rewrite <- (list_byte_of_string_of_list_byte (sealed_token _ _ _)).
      now rewrite Hempty. }
    rewrite (retrieve_found_run w2 acct2 e _ _ Hc Hp Hacct2 Hfind).
    rewrite (decrypt_entry_run w2 e (urandom_bytes w 0 16) _ _
               (urlsafe_b64decode_encode _)).
    cbn [e sealed_entry encrypted_data]. unfold str_encode at 1.
    rewrite list_byte_of_string_of_list_byte, Hdec. cbn [mbind option_bind].
    now rewrite (bytes_decode_encode _ Hwf).
  - intros Hfresh. cbn [add_entry entries]. now apply find_entry_app_new.
Qed.

(** *** Loading *)

(** The whole behaviour of [load_data]. *)
Lemma load_data_run (w : world) :
  load_data w =
    match data_file w with
    | Absent => (Ok (JObject []), w, [])
    | Present false _ => (Raise PermissionError, w, [])
    | Present true content =>
        match bytes_decode content with
        | None => (Raise UnicodeDecodeError, w, [])
        | Some text =>
            match json_loads text with
            | Loaded v => (Ok v, w, [])
            | LoadsDecodeError => (Ok (JObject []), w, [])
            | LoadsValueError => (Raise ValueError, w, [])
            | LoadsRecursionError => (Raise RecursionError, w, [])
            end
        end
    end.
Proof.
  prims; prim. rewrite bind_run. tidy.
  destruct (data_file w) as [|[|] content] eqn:Hf; tidy; [reflexivity| |].
  - rewrite bind_run. tidy. rewrite Hf. tidy. rewrite bind_run.
    destruct (bytes_decode content) as [text|]; tidy; [|reflexivity].
    destruct (json_loads text); reflexivity.
  - rewrite bind_run. tidy. rewrite Hf. reflexivity.
Qed.

(** C7, the failing input.  When the backing file exists and holds the
    single byte 0x81, which is not UTF-8 text, [load_data] raises
    [UnicodeDecodeError]: reading the text file fails inside [json.load],
    and the [except] clause names [JSONDecodeError] and [FileNotFoundError]
    only.  [load_data_run] gives the whole behaviour: a missing file and a
    file that decodes but is not JSON yield the empty object, a file that
    parses yields its document, an unreadable file raises
    [PermissionError], and what [json.loads] raises besides
    [JSONDecodeError] escapes as well. *)
Theorem load_data_undecodable_file (w : world) :
  load_data (set_data_file (Present true [x81]) w)
  = (Raise UnicodeDecodeError, set_data_file (Present true [x81]) w, []).
Proof. rewrite load_data_run. reflexivity. Qed.

(** ** Further properties *)

Ltac same_world :=
  cbv beta iota; unfold result_of, world_of; cbn [fst snd finished];
  split; [first [exact I | reflexivity]
         | split; [assumption | split; reflexivity]].

(** *** Runs of the handlers, in full *)

Lemma register_run (w : world) (username password : string) :
  username ≠ "" → password ≠ "" → data_store (session w) !! username = None →
  disk w = Writable →
  login_page true username password w
  = (Raise RerunException, registered username password w,
     [kdf_call password (urandom_bytes w 0 16);
      st_success "Account created! Logged in."]).
Proof.
  intros Hu Hp Hnone Hdisk. unfold login_page. rewrite (guard_passes _ _ Hu Hp).
  run. rewrite Hnone. run. rewrite Hdisk. reflexivity.
Qed.

Lemma login_existing_run (w : world) (username password : string) (acct : account)
    (salt : bytes) :
  username ≠ "" → password ≠ "" →
  data_store (session w) !! username = Some acct →
  urlsafe_b64decode (password_salt acct) = B64Ok salt →
  disk w = Writable →
  login_page true username password w
  = if (derived_key password salt =? password_hash acct)%string
    then (Raise RerunException, logged_in username w, [kdf_call password salt])
    else (Ok tt, with_failed_attempts (failed_attempts (session w) + 1) w,
          [kdf_call password salt;
           invalid_credentials (failed_attempts (session w) + 1)]).
Proof.
  intros Hu Hp Hacct Hsalt Hdisk.
  destruct (String.eqb_spec (derived_key password salt) (password_hash acct)) as [Heq|Hne].
  - exact (accepted_login_run w username password acct salt Hu Hp Hacct Hsalt Heq Hdisk).
  - apply rejected_login_run. split; [exact Hu|]. split; [exact Hp|]. eauto.
Qed.

Lemma store_run `{!KdfLaws, !FernetLaws} (w : world) (acct : account)
    (data passkey : string) :
  data ≠ "" → passkey ≠ "" → clock w < 2 ^ 64 →
  data_store (session w) !! current_user (session w) = Some acct →
  disk w = Writable →
  store_data_page true data passkey w
  = (Ok tt, stored data passkey acct w,
     [kdf_call passkey (urandom_bytes w 0 16);
      st_success "Data encrypted and saved!";
      st_code (encrypted_data (sealed_entry w data passkey))]).
Proof.
  intros Hd Hp Hclock Hacct Hdisk.
  rewrite (store_data_page_run w acct data passkey Hd Hp Hclock Hacct).
  cbv zeta. now rewrite save_data_run by exact Hdisk.
Qed.

(** The session state the store page leaves, whether or not the store
    could be saved. *)
Lemma store_data_page_session `{!KdfLaws, !FernetLaws} (w : world) (acct : account)
    (data passkey : string) :
  data ≠ "" → passkey ≠ "" → clock w < 2 ^ 64 →
  data_store (session w) !! current_user (session w) = Some acct →
  session (world_of (store_data_page true data passkey w))
  = set_data_store
      (<[current_user (session w) := add_entry (sealed_entry w data passkey) acct]>
         (data_store (session w)))
      (session w).
Proof.
  intros Hd Hp Hclock Hacct.
  rewrite (store_data_page_run w acct data passkey Hd Hp Hclock Hacct). cbv zeta.
  match goal with
  | |- context [save_data ?d ?w1] =>
      pose proof (save_data_frame d w1) as (Hs & _);
      destruct (save_data d w1) as [[[[]|err] w'] t]; exact Hs
  end.
Qed.

Lemma logout_run (w : world) : logout w = (Raise RerunException, logged_out w, []).
Proof. reflexivity. Qed.

Lemma app_flow_run (c : click) (w : world) :
  app_flow c w =
    if authorized (session w) then
      match c with
      | ClickLogout => logout w
      | ClickPage (Login _ _) => (Ok tt, w, [])
      | ClickPage a => press a w
      end
    else
      match c with
      | ClickPage (Login username password) => login_page true username password w
      | _ => (Ok tt, w, [])
      end.
Proof.
  unfold app_flow. rewrite bind_run. unfold get_session. tidy.
  destruct (authorized (session w)).
  - destruct c as [[u p|d k|ci k]|]; tidy; try reflexivity.
    + now destruct (press (Store d k) w) as [[r w'] t].
    + now destruct (press (Retrieve ci k) w) as [[r w'] t].
  - destruct c as [[u p|d k|ci k]|]; tidy; try reflexivity.
    now destruct (login_page true u p w) as [[r w'] t].
Qed.

Lemma retrieve_world (encrypted_input passkey : string) (w : world) :
  world_of (retrieve_data_page true encrypted_input passkey w) = w.
Proof. prims; prim; crunch; reflexivity. Qed.

(** *** What a press changes *)

(** X2.  Whatever button is pressed with whatever inputs, one of three
    things holds: the store and the backing file are both left as they
    were; or the file the run leaves holds the document of the store the
    run leaves; or the file could not be written and the run ends in the
    [OSError] of [save_data], uncaught.  A store that was changed is saved
    or the failure surfaces. *)
Theorem store_saved_after_change (a : action) (w : world) :
  (data_store (session (world_of (press a w))) = data_store (session w)
   ∧ data_file (world_of (press a w)) = data_file w)
  ∨ file_in_sync (world_of (press a w))
  ∨ (disk w ≠ Writable ∧ result_of (press a w) = Raise OSError).
Proof.
  unfold file_in_sync.
  destruct a; prims; prim; crunch; unfold world_of, result_of; cbn [fst snd]; tidy;
    auto.
  all: try (right; right; split; [congruence|reflexivity]).
  all: right; left; unfold file_write; destruct (data_file w); eauto.
Qed.

(** X3.  A button press never removes or rewrites an account: whoever had a
    record before still has one after, with the same salt and the same
    password hash, and the old entries are a prefix of the new ones
    (entries are only ever appended). *)
Theorem accounts_only_grow (a : action) (w : world) (u : string) (acct : account) :
  data_store (session w) !! u = Some acct →
  ∃ acct',
    data_store (session (world_of (press a w))) !! u = Some acct'
    ∧ password_salt acct' = password_salt acct
    ∧ password_hash acct' = password_hash acct
    ∧ entries acct `prefix_of` entries acct'.
Proof.
  intros Hu.
  assert (∃ acct', data_store (session w) !! u = Some acct'
                   ∧ password_salt acct' = password_salt acct
                   ∧ password_hash acct' = password_hash acct
                   ∧ entries acct `prefix_of` entries acct') as Hsame
    by (exists acct; auto).
  destruct a; prims; prim; crunch; unfold world_of; cbn [fst snd]; tidy; auto;
    match goal with
       | Hnone : data_store (session w) !! _ = None |- _ =>
           (* registration: the new name is not [u] *)
           rewrite lookup_insert_ne; [exact Hsame|];
           intros ->; rewrite Hu in Hnone; discriminate Hnone
       | Hcur : data_store (session w) !! current_user (session w) = Some _ |- _ =>
           (* an entry is appended to the current user's record *)
           destruct (decide (current_user (session w) = u)) as [Heq|Hne];
           [ subst u; rewrite lookup_insert_eq; eexists; split; [reflexivity|];
             cbn [password_salt password_hash entries];
             rewrite Hu in Hcur; injection Hcur as <-;
             repeat split; now apply prefix_app_r
           | rewrite lookup_insert_ne by exact Hne; exact Hsame ]
       end.
Qed.

(** The session state an accepted login leaves, whether or not the store
    could be saved. *)
Lemma accepted_login_session (w : world) (username password : string) (acct : account)
    (salt : bytes) :
  username ≠ "" → password ≠ "" →
  data_store (session w) !! username = Some acct →
  urlsafe_b64decode (password_salt acct) = B64Ok salt →
  derived_key password salt = password_hash acct →
  session (world_of (login_page true username password w))
  = set_authorized true (set_current_user username (session w)).
Proof.
  intros Hu Hp Hacct Hsalt Heq. unfold login_page.
  rewrite (guard_passes _ _ Hu Hp). run. rewrite Hacct. run.
  rewrite (b64decode_run _ _ _ Hsalt). run.
  rewrite (proj2 (String.eqb_eq _ _) Heq). cbn [negb]. run.
  destruct (disk w) as [| |room]; [reflexivity..|].
  now destruct (length _ <=? room)%nat.
Qed.

(** X5.  The failed-attempts counter locks nobody out.  Whatever value [n]
    it holds (at or beyond [MAX_FAILED_ATTEMPTS] included), a login whose
    derived key equals the stored hash is accepted: the session is logged
    in with the counter still at [n], and when the store can be saved the
    script reruns.  One whose key differs is refused, the counter becomes
    [n + 1] and the message announces [MAX_FAILED_ATTEMPTS - (n + 1)]
    attempts left, a negative number once the limit is passed. *)
Theorem no_lockout (w : world) (n : Z) (username password : string) (acct : account)
    (salt : bytes) :
  username ≠ "" → password ≠ "" →
  data_store (session w) !! username = Some acct →
  urlsafe_b64decode (password_salt acct) = B64Ok salt →
  (derived_key password salt = password_hash acct →
   session (world_of (login_page true username password (with_failed_attempts n w)))
   = session (logged_in username (with_failed_attempts n w))
   ∧ failed_attempts (session (logged_in username (with_failed_attempts n w))) = n
   ∧ authorized (session (logged_in username (with_failed_attempts n w))) = true
   ∧ (disk w = Writable →
      login_page true username password (with_failed_attempts n w)
      = (Raise RerunException, logged_in username (with_failed_attempts n w),
         [kdf_call password salt])))
  ∧ (derived_key password salt ≠ password_hash acct →
     login_page true username password (with_failed_attempts n w)
     = (Ok tt, with_failed_attempts (n + 1) w,
        [kdf_call password salt;
         st_error ("Invalid credentials. " +:+ pretty (MAX_FAILED_ATTEMPTS - (n + 1))%Z
                   +:+ " attempts left")])).
Proof.
  intros Hu Hp Hacct Hsalt. split.
  - intros Heq. split; [|split; [reflexivity|split; [reflexivity|]]].
    + exact (accepted_login_session (with_failed_attempts n w) username password acct
               salt Hu Hp Hacct Hsalt Heq).
    + intros Hdisk.
      exact (accepted_login_run (with_failed_attempts n w) username password acct salt
               Hu Hp Hacct Hsalt Heq Hdisk).
  - intros Hne.
    apply (rejected_login_run (with_failed_attempts n w) username password salt).
    split; [exact Hu|]. split; [exact Hp|]. exists acct. auto.
Qed.

(** X4.  Register, log out, log in again.  From a logged-out session a new
    non-empty username and password register and log in; the logout button
    clears [authorized] and [current_user] and keeps the store; logging in
    again with the same password is accepted, derives with the salt drawn
    at registration, and restores the session the registration left.  The
    session states are these whether or not the store can be saved; when
    it can, both logins end in a rerun. *)
Theorem register_logout_login (w : world) (username password : string) :
  authorized (session w) = false →
  username ≠ "" → password ≠ "" → data_store (session w) !! username = None →
  let w1 := registered username password w in
  let w2 := logged_out w1 in
  session (world_of (app_flow (ClickPage (Login username password)) w)) = session w1
  ∧ (disk w = Writable →
     app_flow (ClickPage (Login username password)) w
     = (Raise RerunException, w1,
        [kdf_call password (urandom_bytes w 0 16);
         st_success "Account created! Logged in."]))
  ∧ app_flow ClickLogout w1 = (Raise RerunException, w2, [])
  ∧ authorized (session w2) = false
  ∧ current_user (session w2) = ""
  ∧ data_store (session w2) = data_store (session w1)
  ∧ session (world_of (app_flow (ClickPage (Login username password)) w2))
    = session w1
  ∧ (disk w = Writable →
     app_flow (ClickPage (Login username password)) w2
     = (Raise RerunException, logged_in username w2,
        [kdf_call password (urandom_bytes w 0 16)]))
  ∧ session (logged_in username w2) = session w1.
Proof.
  intros Hauth Hu Hp Hnone w1 w2.
  assert (authorized (session w2) = false) as Hauth2 by reflexivity.
  assert (data_store (session w2) !! username
          = Some {| password_salt := b64_str (urandom_bytes w 0 16);
                    password_hash := derived_key password (urandom_bytes w 0 16);
                    entries := [] |}) as Hacct by apply lookup_insert_eq.
  split; [|split; [|split; [|split; [|split; [|split; [|split; [|split]]]]]]];
    try reflexivity.
  - rewrite (app_flow_login _ _ _ Hauth).
    exact (register_session w username password Hu Hp Hnone).
  - intros Hdisk. rewrite (app_flow_login _ _ _ Hauth).
    exact (register_run w _ _ Hu Hp Hnone Hdisk).
  - rewrite (app_flow_login _ _ _ Hauth2).
    exact (accepted_login_session w2 username password _ _ Hu Hp Hacct
             (urlsafe_b64decode_encode _) eq_refl).
  - intros Hdisk. rewrite (app_flow_login _ _ _ Hauth2).
    exact (accepted_login_run w2 username password _ _ Hu Hp Hacct
             (urlsafe_b64decode_encode _) eq_refl Hdisk).
Qed.

(** X8.  The dashboard shows the number of entries of the current user's
    record and changes nothing; after a store with both fields filled in
    it shows one more, and after a retrieval, whatever its outcome, the
    same number. *)
Theorem dashboard_counts_entries `{!KdfLaws, !FernetLaws} (w : world) (acct : account) :
  data_store (session w) !! current_user (session w) = Some acct →
  dashboard_page w = (Ok (length (entries acct)), w, [])
  ∧ (∀ data passkey,
       data ≠ "" → passkey ≠ "" → clock w < 2 ^ 64 →
       dashboard_page (world_of (store_data_page true data passkey w))
       = (Ok (S (length (entries acct))),
          world_of (store_data_page true data passkey w), []))
  ∧ (∀ encrypted_input passkey,
       dashboard_page (world_of (retrieve_data_page true encrypted_input passkey w))
       = (Ok (length (entries acct)),
          world_of (retrieve_data_page true encrypted_input passkey w), [])).
Proof.
  intros Hacct.
  assert (dashboard_page w = (Ok (length (entries acct)), w, [])) as Hdash.
  { unfold dashboard_page. run. now rewrite Hacct. }
  split; [exact Hdash|]. split.
  - intros data passkey Hd Hp Hclock.
    pose proof (store_data_page_session w acct data passkey Hd Hp Hclock Hacct) as Hs.
    unfold dashboard_page. run. rewrite Hs. tidy. rewrite lookup_insert_eq. tidy.
    cbn [add_entry entries]. rewrite length_app. cbn [length].
    now rewrite Nat.add_1_r.
  - intros ci k. now rewrite retrieve_world.
Qed.


(** *** Runs that end well *)

Lemma blocked_run (w : world) (a b : string) :
  (a =? "")%string || (b =? "")%string = true →
  login_page true a b w = (Ok tt, w, [st_error "Please fill all fields"])
  ∧ store_data_page true a b w = (Ok tt, w, [st_error "All fields required"])
  ∧ retrieve_data_page true a b w = (Ok tt, w, [st_error "All fields required"]).
Proof.
  intros Hg. unfold login_page, store_data_page, retrieve_data_page.
  rewrite Hg. repeat split.
Qed.

Lemma guard_cases (a b : string) :
  ((a =? "")%string || (b =? "")%string = true) ∨ (a ≠ "" ∧ b ≠ "").
Proof.
  destruct (String.eqb_spec a ""); [left; reflexivity|].
  destruct (String.eqb_spec b ""); [left; reflexivity|]. right. auto.
Qed.

Lemma decodable_b64_str (bs : bytes) : decodable (b64_str bs).
Proof. exists bs. apply urlsafe_b64decode_encode. Qed.

Lemma decodable_store_insert (d : gmap string account) (u : string) (acct : account) :
  decodable_store d → decodable_account acct → decodable_store (<[u := acct]> d).
Proof.
  intros Hd Hacct u' acct'. destruct (decide (u = u')) as [->|Hne].
  - rewrite lookup_insert_eq. now intros [= <-].
  - rewrite lookup_insert_ne by exact Hne. apply Hd.
Qed.

Lemma find_entry_elem (es : list entry) (c : string) (e : entry) :
  find_entry es c = Some e → e ∈ es ∧ encrypted_data e = c.
Proof.
  intros Hf. destruct (find_entry_Some es c e Hf) as (i & Hi & Hc & _).
  split; [|exact Hc]. eapply list_elem_of_lookup_2. exact Hi.
Qed.

(** What [app_flow] returns and the store it leaves, press by press, in a
    healthy world. *)
Lemma app_flow_finishes_store `{!KdfLaws, !FernetLaws} (c : click) (w : world) :
  healthy w →
  finished (result_of (app_flow c w))
  ∧ decodable_store (data_store (session (world_of (app_flow c w))))
  ∧ clock (world_of (app_flow c w)) = clock w
  ∧ disk (world_of (app_flow c w)) = disk w.
Proof.
  intros (Hknown & Hstore & Hclock & Hdisk). rewrite app_flow_run.
  destruct (authorized (session w)) eqn:Hauth.
  - destruct (Hknown Hauth) as [acct Hacct].
    destruct c as [[u p|d k|ci k]|].
    + same_world.
    + cbv beta iota. cbn [press]. destruct (guard_cases d k) as [Hg|[Hd Hk]].
      * rewrite (proj1 (proj2 (blocked_run w d k Hg))). same_world.
      * rewrite (store_run w acct d k Hd Hk Hclock Hacct Hdisk).
        unfold result_of, world_of; cbn [fst snd stored session data_store clock disk
                                          set_data_store].
        split; [exact I|]. split; [|split; reflexivity].
        apply decodable_store_insert; [exact Hstore|].
        destruct (Hstore _ _ Hacct) as [Hsalt Hentries]. split; [exact Hsalt|].
        cbn [add_entry entries]. apply Forall_app. split; [exact Hentries|].
        constructor; [apply decodable_b64_str|constructor].
    + cbv beta iota. cbn [press]. destruct (guard_cases ci k) as [Hg|[Hc Hk]].
      * rewrite (proj2 (proj2 (blocked_run w ci k Hg))). same_world.
      * destruct (find_entry (entries acct) ci) as [e|] eqn:Hfind.
        -- destruct (find_entry_elem _ _ _ Hfind) as [He _].
           destruct (Hstore _ _ Hacct) as [_ Hentries].
           rewrite Forall_forall in Hentries.
           destruct (Hentries e He) as [salt Hsalt].
           rewrite (retrieve_found_run w acct e ci k Hc Hk Hacct Hfind).
           rewrite (decrypt_entry_run w e salt ci k Hsalt).
           same_world.
        -- rewrite (retrieve_not_found_run w acct ci k Hc Hk Hacct Hfind).
           same_world.
    + cbv beta iota. rewrite logout_run. same_world.
  - destruct c as [[u p|d k|ci k]|]; try same_world. cbv beta iota.
    destruct (guard_cases u p) as [Hg|[Hu Hp]].
    + rewrite (proj1 (blocked_run w u p Hg)). same_world.
    + destruct (data_store (session w) !! u) as [acct|] eqn:Hacct.
      * destruct (Hstore _ _ Hacct) as [[salt Hsalt] _].
        rewrite (login_existing_run w u p acct salt Hu Hp Hacct Hsalt Hdisk).
        destruct (derived_key p salt =? password_hash acct)%string;
          same_world.
      * rewrite (register_run w u p Hu Hp Hacct Hdisk).
        unfold result_of, world_of; cbn [fst snd registered session data_store clock
                                          disk].
        split; [reflexivity|]. split; [|split; reflexivity].
        apply decodable_store_insert; [exact Hstore|].
        split; [apply decodable_b64_str|constructor].
Qed.

Lemma app_flow_step_finishes `{!KdfLaws, !FernetLaws} (c : click) (w : world) :
  healthy w →
  finished (result_of (app_flow c w)) ∧ healthy (world_of (app_flow c w)).
Proof.
  intros Hw.
  destruct (app_flow_finishes_store c w Hw) as (Hfin & Hstore & Hclock & Hdisk).
  split; [exact Hfin|]. destruct Hw as (Hknown & _ & Hbound & Hwritable).
  split; [|split; [|split]].
  - now apply app_flow_keeps_current_user_known.
  - exact Hstore.
  - now rewrite Hclock.
  - now rewrite Hdisk.
Qed.

(** X6.  From a healthy world (whoever is logged in has a record, every
    stored salt is base64 text, the clock is a 64-bit time, the backing
    file can be written) any sequence of button presses runs without an
    uncaught exception: every run of the script ends normally or in
    [st.rerun()], and the world at the end is healthy again. *)
Theorem presses_never_crash `{!KdfLaws, !FernetLaws} (cs : list click) (w : world) :
  healthy w →
  Forall finished (presses cs w).1 ∧ healthy (presses cs w).2.
Proof.
  revert w. induction cs as [|c cs IH]; intros w Hw.
  - split; [constructor|exact Hw].
  - cbn [presses].
    destruct (app_flow_step_finishes c w Hw) as [Hfin Hw1].
    destruct (app_flow c w) as [[r w1] t].
    destruct (IH w1 Hw1) as [Hrest Hend].
    destruct (presses cs w1) as [rs w2]. split; [|exact Hend].
    constructor; [exact Hfin|exact Hrest].
Qed.

Lemma fresh_empty_healthy (f : file) (e : nat → byte) (t : N) :
  t < 2 ^ 64 →
  healthy {| session := fresh_session ∅; data_file := f; disk := Writable;
             entropy := e; clock := t |}.
Proof.
  intros Ht. split; [|split; [|split; [exact Ht|reflexivity]]].
  - intros Ha. discriminate Ha.
  - intros u acct Hu. cbn in Hu. rewrite lookup_empty in Hu. discriminate Hu.
Qed.

(** *** Bad data *)

(** X9.  A stored salt that is not base64 text crashes the page: the login
    page for that account and the retrieve page for that entry raise the
    decoder's exception ([binascii.Error] or [ValueError]) uncaught, before
    any key is derived and without changing the world.  In the retrieve
    page the salt is decoded outside the [try]. *)
Theorem undecodable_salt_escapes (w : world) (acct : account) :
  (∀ username password err,
     username ≠ "" → password ≠ "" →
     data_store (session w) !! username = Some acct →
     b64_error (urlsafe_b64decode (password_salt acct)) = Some err →
     login_page true username password w = (Raise err, w, []))
  ∧ (∀ encrypted_input passkey e err,
       encrypted_input ≠ "" → passkey ≠ "" →
       data_store (session w) !! current_user (session w) = Some acct →
       find_entry (entries acct) encrypted_input = Some e →
       b64_error (urlsafe_b64decode (entry_salt e)) = Some err →
       retrieve_data_page true encrypted_input passkey w = (Raise err, w, [])).
Proof.
  split.
  - intros u p err Hu Hp Hacct Herr. unfold login_page.
    rewrite (guard_passes _ _ Hu Hp). run. rewrite Hacct. run.
    unfold b64decode.
    destruct (urlsafe_b64decode (password_salt acct)); cbn in Herr;
      [discriminate|injection Herr as <-; reflexivity..].
  - intros ci k e err Hc Hk Hacct Hfind Herr.
    rewrite (retrieve_found_run w acct e ci k Hc Hk Hacct Hfind).
    unfold decrypt_entry. run. unfold b64decode.
    destruct (urlsafe_b64decode (entry_salt e)); cbn in Herr;
      [discriminate|injection Herr as <-; reflexivity..].
Qed.

(** X11.  When the session names a current user that has no record in the
    store, the dashboard and the retrieve page raise [KeyError] without
    any effect; the store page raises it too, but only after it has
    derived the key and sealed the data, so 32 bytes of entropy are
    consumed and nothing is stored or saved. *)
Theorem missing_record_raises `{!KdfLaws, !FernetLaws} (w : world) :
  data_store (session w) !! current_user (session w) = None →
  dashboard_page w = (Raise KeyError, w, [])
  ∧ (∀ encrypted_input passkey,
       encrypted_input ≠ "" → passkey ≠ "" →
       retrieve_data_page true encrypted_input passkey w = (Raise KeyError, w, []))
  ∧ (∀ data passkey,
       data ≠ "" → passkey ≠ "" → clock w < 2 ^ 64 →
       store_data_page true data passkey w
       = (Raise KeyError, set_entropy (λ i, entropy w (32 + i)%nat) w,
          [kdf_call passkey (urandom_bytes w 0 16)])).
Proof.
  intros Hnone. split; [|split].
  - unfold dashboard_page. run. now rewrite Hnone.
  - intros ci k Hc Hk. unfold retrieve_data_page. rewrite (guard_passes _ _ Hc Hk).
    run. now rewrite Hnone.
  - intros data passkey Hd Hp Hclock.
    pose proof (urandom_bytes_length w 16 16) as Liv.
    assert (length (raw_key passkey (urandom_bytes w 0 16)) = 32%nat) as Lkey
      by (apply pbkdf2_length; unfold PBKDF2_ITERATIONS, MAX_ITERATIONS; lia).
    pose proof (fernet_token_ascii _ _ _ (str_encode data) Lkey Liv Hclock) as Hascii.
    change (forallb is_ascii (sealed_token w data passkey) = true) in Hascii.
    unfold store_data_page. rewrite (guard_passes _ _ Hd Hp). run.
    change (map (entropy w) (seq 0 16)) with (urandom_bytes w 0 16).
    rewrite Fernet_run. run.
    change (fernet_encrypt _ _ _ _) with (sealed_token w data passkey).
    unfold decode at 1. rewrite (bytes_decode_ascii _ Hascii). run.
    rewrite Hnone. reflexivity.
Qed.

(** X10.  The retrieve page derives keys only for the current user's own
    entries: every PBKDF2 call in its trace is made on the passkey typed in
    and on the decoded salt of an entry of the current user's record whose
    ciphertext is the one typed in. *)
Theorem retrieve_derives_for_own_entry (w : world) (encrypted_input passkey : string)
    (password salt : bytes) (iterations : N) :
  In (ev_pbkdf2_hmac password salt iterations)
     (trace_of (retrieve_data_page true encrypted_input passkey w)) →
  password = str_encode passkey
  ∧ ∃ acct e,
      data_store (session w) !! current_user (session w) = Some acct
      ∧ e ∈ entries acct
      ∧ encrypted_data e = encrypted_input
      ∧ urlsafe_b64decode (entry_salt e) = B64Ok salt.
Proof.
  prims; prim; crunch; unfold trace_of; cbn [snd app]; intros Hin.
  all: repeat (destruct Hin as [Hin|Hin]; try discriminate Hin); try contradiction.
  all: injection Hin as <- <- <-; split; [reflexivity|].
  all: match goal with
       | Hf : find_entry _ _ = Some ?e |- _ =>
           destruct (find_entry_elem _ _ _ Hf) as [He Hc]; eauto 10
       end.
Qed.

(** *** Loading and saving *)

(** X12.  [load_data] changes nothing and derives nothing; a missing file
    and a file whose text is not JSON both give the empty document [{}], a
    file that parses gives its document, and the [ValueError] or
    [RecursionError] that [json.load] raises on JSON text it cannot build
    escapes. *)
Theorem load_data_falls_back (w : world) :
  world_of (load_data w) = w
  ∧ trace_of (load_data w) = []
  ∧ (data_file w = Absent → result_of (load_data w) = Ok (JObject []))
  ∧ (∀ content text,
       data_file w = Present true content → bytes_decode content = Some text →
       json_loads text = LoadsDecodeError → result_of (load_data w) = Ok (JObject []))
  ∧ (∀ content text v,
       data_file w = Present true content → bytes_decode content = Some text →
       json_loads text = Loaded v → result_of (load_data w) = Ok v)
  ∧ (∀ content text,
       data_file w = Present true content → bytes_decode content = Some text →
       (json_loads text = LoadsValueError → result_of (load_data w) = Raise ValueError)
       ∧ (json_loads text = LoadsRecursionError →
          result_of (load_data w) = Raise RecursionError)).
Proof.
  rewrite load_data_run.
  split; [|split; [|split; [|split; [|split]]]].
  - destruct (data_file w) as [|[|] content]; try reflexivity.
    destruct (bytes_decode content) as [text|]; [|reflexivity].
    destruct (json_loads text); reflexivity.
  - destruct (data_file w) as [|[|] content]; try reflexivity.
    destruct (bytes_decode content) as [text|]; [|reflexivity].
    destruct (json_loads text); reflexivity.
  - now intros ->.
  - intros content text -> -> ->. reflexivity.
  - intros content text v -> -> ->. reflexivity.
  - intros content text -> ->. split; intros ->; reflexivity.
Qed.

(** X14.  What a failed save leaves behind.  When the backing file cannot
    be opened for writing, a registration still puts the new account in
    the in-memory store, shows ["Account created! Logged in."] and marks
    the session as logged in, and a store with both fields filled in
    still appends the sealed entry in memory; both then end in the
    uncaught [OSError] of [save_data], before [st.rerun()] and before
    ["Data encrypted and saved!"], with the file as it was. *)
Theorem unsaved_changes_stay_in_memory `{!KdfLaws, !FernetLaws} (w : world) :
  disk w = Unwritable →
  (∀ username password,
     username ≠ "" → password ≠ "" → data_store (session w) !! username = None →
     login_page true username password w
     = (Raise OSError,
        set_data_file (data_file w) (registered username password w),
        [kdf_call password (urandom_bytes w 0 16);
         st_success "Account created! Logged in."]))
  ∧ (∀ acct data passkey,
       data ≠ "" → passkey ≠ "" → clock w < 2 ^ 64 →
       data_store (session w) !! current_user (session w) = Some acct →
       store_data_page true data passkey w
       = (Raise OSError,
          set_data_file (data_file w) (stored data passkey acct w),
          [kdf_call passkey (urandom_bytes w 0 16)])).
Proof.
  intros Hdisk. split.
  - intros username password Hu Hp Hnone. unfold login_page.
    rewrite (guard_passes _ _ Hu Hp). run. rewrite Hnone. run.
    rewrite Hdisk at 1. unfold registered, set_data_file. tidy. reflexivity.
  - intros acct data passkey Hd Hp Hclock Hacct.
    rewrite (store_data_page_run w acct data passkey Hd Hp Hclock Hacct). cbv zeta.
    unfold save_data. tidy. rewrite Hdisk at 1.
    unfold stored, set_data_file. tidy. reflexivity.
Qed.

(** *** Key derivation *)

(** X13.  [derive_key] reads and writes no state.  With an iteration count
    of zero it raises [ValueError], with one above [INT_MAX] it raises
    [OverflowError], in both cases before deriving anything; with any
    count in between, explicit or the default [PBKDF2_ITERATIONS], it
    makes exactly one PBKDF2 call with that count and returns text that
    decodes back to the raw key and that [Fernet] accepts as a key. *)
Theorem derive_key_text `{!KdfLaws} (password : string) (salt : bytes)
    (iterations : option N) (w : world) :
  let n := default PBKDF2_ITERATIONS iterations in
  let raw := pbkdf2_hmac_sha256 (str_encode password) salt n in
  (n = 0 → derive_key password salt iterations w = (Raise ValueError, w, []))
  ∧ (MAX_ITERATIONS < n →
     derive_key password salt iterations w = (Raise OverflowError, w, []))
  ∧ (1 ≤ n → n ≤ MAX_ITERATIONS →
     derive_key password salt iterations w
     = (Ok (b64_str raw), w, [ev_pbkdf2_hmac (str_encode password) salt n])
     ∧ urlsafe_b64decode (b64_str raw) = B64Ok raw
     ∧ Fernet (b64_str raw) w = (Ok raw, w, [])).
Proof.
  intros n raw. split; [|split].
  - intros Hn. unfold derive_key. rewrite bind_run. unfold pbkdf2_hmac.
    fold n. rewrite Hn. reflexivity.
  - intros Hn. unfold derive_key. rewrite bind_run. unfold pbkdf2_hmac. fold n.
    destruct (N.ltb_spec n 1) as [Hlt|_]; [unfold MAX_ITERATIONS in Hn; lia|].
    destruct (N.ltb_spec MAX_ITERATIONS n) as [_|Hge]; [reflexivity|lia].
  - intros Hn Hmax. split; [|split].
    + unfold derive_key. rewrite bind_run. unfold pbkdf2_hmac. fold n.
      destruct (N.ltb_spec n 1) as [Hlt|_]; [lia|].
      destruct (N.ltb_spec MAX_ITERATIONS n) as [Hgt|_]; [lia|].
      rewrite bind_run. prim. tidy. fold raw. unfold decode.
      rewrite bytes_decode_b64. reflexivity.
    + apply urlsafe_b64decode_encode.
    + unfold Fernet. rewrite urlsafe_b64decode_encode. unfold raw.
      rewrite pbkdf2_length by assumption. reflexivity.
Qed.

End properties.

(** ** The stand-ins meet the contracts *)

Lemma strip_zeros_app_zero (bs : bytes) : strip_zeros (bs ++ [x00]) = strip_zeros bs.
Proof. unfold strip_zeros. now rewrite reverse_app. Qed.

Lemma sim_kdf_laws : KdfLaws (kdf := sim_kdf).
Proof.
  constructor.
  - intros password salt iterations _ _.
    change (length (take 32 (strip_zeros password ++ salt ++ replicate 32 x00))
            = 32%nat).
    rewrite length_take, !length_app, length_replicate. lia.
  - intros password salt iterations _.
    change (take 32 (strip_zeros (password ++ [x00]) ++ salt ++ replicate 32 x00)
            = take 32 (strip_zeros password ++ salt ++ replicate 32 x00)).
    now rewrite strip_zeros_app_zero.
Qed.

Lemma sim_fernet_laws : FernetLaws (fernet := sim_fernet).
Proof.
  constructor.
  - intros key key' iv time data Hkey Hkey' Hiv _ Hother.
    change (match urlsafe_b64decode_bytes (urlsafe_b64encode (key ++ iv ++ data)) with
            | Some raw =>
                if bool_decide (take 32 raw = key') && (48 <=? length raw)%nat
                then Some (drop 48 raw) else None
            | None => None
            end = None).
    rewrite urlsafe_b64decode_bytes_encode.
    rewrite take_app_length' by (symmetry; exact Hkey).
    rewrite bool_decide_eq_false_2; [reflexivity|].
    intros ->. now apply Hother.
  - intros key token data Hkey Hdec.
    change (match urlsafe_b64decode_bytes token with
            | Some raw =>
                if bool_decide (take 32 raw = key) && (48 <=? length raw)%nat
                then Some (drop 48 raw) else None
            | None => None
            end = Some data) in Hdec.
    destruct (urlsafe_b64decode_bytes token) as [raw|]; [|discriminate Hdec].
    destruct (bool_decide (take 32 raw = key)) eqn:Hraw; [|discriminate Hdec].
    destruct (48 <=? length raw)%nat eqn:Hlen; [|discriminate Hdec].
    injection Hdec as <-. apply bool_decide_eq_true_1 in Hraw.
    apply Nat.leb_le in Hlen.
    exists (take 16 (drop 32 raw)), 0. split; [|split; [reflexivity|]].
    + rewrite length_take, length_drop. lia.
    + change (Some raw
              = urlsafe_b64decode_bytes
                  (urlsafe_b64encode (key ++ take 16 (drop 32 raw) ++ drop 48 raw))).
      rewrite urlsafe_b64decode_bytes_encode. f_equal. rewrite <- Hraw.
      change 48%nat with (32 + 16)%nat. rewrite <- drop_drop.
      now rewrite !take_drop.
  - intros key iv time data Hkey Hiv _.
    change (match urlsafe_b64decode_bytes (urlsafe_b64encode (key ++ iv ++ data)) with
            | Some raw =>
                if bool_decide (take 32 raw = key) && (48 <=? length raw)%nat
                then Some (drop 48 raw) else None
            | None => None
            end = Some data).
    rewrite urlsafe_b64decode_bytes_encode.
    rewrite take_app_length' by (symmetry; exact Hkey).
    rewrite bool_decide_eq_true_2 by reflexivity.
    rewrite !length_app, Hkey, Hiv.
    replace (48 <=? 32 + (16 + length data))%nat with true
      by (symmetry; apply Nat.leb_le; lia).
    cbn [andb]. f_equal. rewrite app_assoc.
    apply drop_app_length'. rewrite length_app. lia.
  - intros key iv time data _ _ _. apply urlsafe_b64encode_ascii.
  - intros key iv time data Hkey _ _.
    change (urlsafe_b64encode (key ++ iv ++ data) ≠ []).
    destruct key as [|a [|b [|c key]]]; discriminate.
Qed.

(** ** Runs on concrete inputs *)

Section runs.
#[local] Existing Instance sim_kdf.
#[local] Existing Instance sim_fernet.
#[local] Existing Instance sim_json.
#[local] Existing Instance sim_kdf_laws.
#[local] Existing Instance sim_fernet_laws.

(** C6 on a concrete world: an empty username, data and ciphertext field. *)
Lemma missing_fields_rejected_witness :
  login_page true "" "pw1" w_alice
  = (Ok tt, w_alice, [st_error "Please fill all fields"])
  ∧ store_data_page true "" "pw1" w_alice
    = (Ok tt, w_alice, [st_error "All fields required"])
  ∧ retrieve_data_page true "" "pw1" w_alice
    = (Ok tt, w_alice, [st_error "All fields required"]).
Proof. exact (missing_fields_rejected w_alice "" "pw1" (or_introl eq_refl)). Defined.

(** C10 on a concrete world: ["BBBB"] is carried by the second and the third
    entry and the second is decrypted; ["ZZZZ"] is carried by none. *)
Lemma lookup_first_match_witness :
  retrieve_data_page true "ZZZZ" "k1" w_dup = (Ok tt, w_dup, [st_error "Data not found"])
  ∧ retrieve_data_page true "BBBB" "k1" w_dup = decrypt_entry e_second "BBBB" "k1" w_dup.
Proof.
  split.
  - refine (proj1 (lookup_first_match w_dup _ "ZZZZ" "k1" _ _ _) _);
      [discriminate|discriminate|vm_compute; reflexivity|].
    intros e He. apply list_elem_of_In in He.
    destruct He as [<-|[<-|[<-|[]]]]; discriminate.
  - refine (proj2 (lookup_first_match w_dup _ "BBBB" "k1" _ _ _) 1%nat e_second _ _ _);
      [discriminate|discriminate|vm_compute; reflexivity|reflexivity|reflexivity|].
    intros [|j] e' Hj He'; [|lia]. injection He' as <-. discriminate.
Defined.

(** C2 on concrete worlds: the entry sealed under ["k1"] opened with ["k2"]
    and with ["k1"], and the stored ciphertext ["BBBB"], which is no
    token. *)
Lemma decrypt_failure_is_generic_witness :
  retrieve_data_page true c_sealed "k2" w_sealed
  = (Ok tt, w_sealed,
     [kdf_call "k2" (urandom_bytes w_alice 0 16);
      st_error "Invalid passkey or corrupted data"])
  ∧ retrieve_data_page true c_sealed "k1" w_sealed
    = (Ok tt, w_sealed,
       [kdf_call "k1" (urandom_bytes w_alice 0 16);
        st_success "Decrypted successfully!";
        st_text_area "Decrypted Data" "hello world"])
  ∧ retrieve_data_page true "BBBB" "k1" w_dup
    = (Ok tt, w_dup,
       [kdf_call "k1" (str_encode "salt-two");
        st_error "Invalid passkey or corrupted data"]).
Proof.
  split; [|split].
  - refine (proj1 (proj2 (proj2
              (decrypt_failure_is_generic w_sealed _ c_sealed "k2" _ _ _))
              w_alice "hello world" "k1" _ _ _ _) _);
      [discriminate|discriminate|vm_compute; reflexivity|vm_compute; reflexivity
      |vm_compute; reflexivity|reflexivity|vm_compute; reflexivity|].
    intros Hsame. vm_compute in Hsame. discriminate Hsame.
  - refine (proj2 (proj2 (proj2
              (decrypt_failure_is_generic w_sealed _ c_sealed "k1" _ _ _))
              w_alice "hello world" "k1" _ _ _ _) _);
      [discriminate|discriminate|vm_compute; reflexivity|vm_compute; reflexivity
      |vm_compute; reflexivity|reflexivity|vm_compute; reflexivity|reflexivity].
  - refine (proj1 (proj2 (decrypt_failure_is_generic w_dup _ "BBBB" "k1" _ _ _))
              e_second (str_encode "salt-two") _ _ _);
      [discriminate|discriminate|vm_compute; reflexivity|vm_compute; reflexivity
      |vm_compute; reflexivity|].
    intros iv time data _ _ Hsame.
    change (urlsafe_b64decode_bytes (str_encode "BBBB")
            = urlsafe_b64decode_bytes
                (urlsafe_b64encode (raw_key "k1" (str_encode "salt-two") ++ iv ++ data)))
      in Hsame.
    rewrite urlsafe_b64decode_bytes_encode in Hsame.
    vm_compute in Hsame. discriminate Hsame.
Defined.

(** C2, counterexample.  ["k1"] and ["k1"] followed by a NUL character are
    distinct non-empty passkeys, yet the entry sealed under the first is
    opened by the second: PBKDF2-HMAC pads the shorter key with zero bytes,
    so both derive the same key, and the page shows the plaintext instead
    of the error. *)
Lemma padded_passkey_opens_entry :
  "k1"%string ≠ padded "k1"
  ∧ padded "k1" ≠ ""%string
  ∧ retrieve_data_page true c_sealed (padded "k1") w_sealed
    = (Ok tt, w_sealed,
       [kdf_call (padded "k1") (urandom_bytes w_alice 0 16);
        st_success "Decrypted successfully!";
        st_text_area "Decrypted Data" "hello world"]).
Proof.
  split; [|split].
  - intros Heq. vm_compute in Heq. discriminate Heq.
  - intros Heq. vm_compute in Heq. discriminate Heq.
  - vm_compute. reflexivity.
Qed.

(** C1 on a concrete world: ["hello world"] sealed under ["k1"] and opened
    again. *)
Lemma seal_then_open_witness :
  store_data_page true "hello world" "k1" w_alice
  = (Ok tt, w_sealed,
     [kdf_call "k1" (urandom_bytes w_alice 0 16);
      st_success "Data encrypted and saved!";
      st_code c_sealed])
  ∧ retrieve_data_page true c_sealed "k1" w_sealed
    = (Ok tt, w_sealed,
       [kdf_call "k1" (urandom_bytes w_alice 0 16);
        st_success "Decrypted successfully!";
        st_text_area "Decrypted Data" "hello world"]).
Proof.
  assert (data_store (session w_alice) !! current_user (session w_alice)
          = Some {| password_salt := "AwoRGB8mLTQ7QklQV15lbA==";
                    password_hash := "cHcxAwoRGB8mLTQ7QklQV15lbAAAAAAAAAAAAAAAAAA=";
                    entries := [] |}) as Hacct by (vm_compute; reflexivity).
  assert ("hello world" ≠ "")%string as Hd by discriminate.
  assert ("k1" ≠ "")%string as Hp by discriminate.
  assert (wf_str "hello world") as Hwf by (vm_compute; reflexivity).
  assert (clock w_alice < 2 ^ 64) as Hclock by (vm_compute; reflexivity).
  assert (disk w_alice = Writable) as Hdisk by (vm_compute; reflexivity).
  destruct (seal_then_open w_alice _ "hello world" "k1" Hd Hp Hwf Hclock Hacct)
    as (_ & _ & Hstore & Hopen & Hfind).
  split.
  - rewrite (Hstore Hdisk). vm_compute. reflexivity.
  - refine (Hopen w_sealed _ _ _); vm_compute; reflexivity.
Defined.

(** C3 on a concrete world: ["alice"] registers with ["pw1"]; later, with an
    entry stored, ["pw2"] is refused and her record is untouched. *)
Lemma register_then_reject_witness :
  login_page true "alice" "pw1" w_fresh
  = (Raise RerunException, w_alice,
     [kdf_call "pw1" (urandom_bytes w_fresh 0 16);
      st_success "Account created! Logged in."])
  ∧ login_page true "alice" "pw2" w_sealed
    = (Ok tt, with_failed_attempts 1 w_sealed,
       [kdf_call "pw2" (urandom_bytes w_fresh 0 16);
        st_error "Invalid credentials. 2 attempts left"])
  ∧ data_store (session (with_failed_attempts 1 w_sealed)) = data_store (session w_sealed).
Proof.
  assert ("alice" ≠ "")%string as Hu by discriminate.
  assert ("pw1" ≠ "")%string as Hp by discriminate.
  assert (data_store (session w_fresh) !! "alice"%string = None) as Hnone
    by (vm_compute; reflexivity).
  destruct (register_then_reject w_fresh "alice" "pw1" Hu Hp Hnone)
    as (_ & _ & Hreg & Hlater).
  split; [|split; [|reflexivity]].
  - rewrite (Hreg eq_refl). reflexivity.
  - refine (proj1 (proj1 (Hlater w_sealed _ "pw2" _ _ _ _) _));
      [vm_compute; reflexivity|vm_compute; reflexivity|vm_compute; reflexivity
      |discriminate|].
    intros Heq. vm_compute in Heq. discriminate Heq.
Defined.

(** C5 on a concrete world: with nobody logged in, refused logins for
    ["alice"], ["bob"] and ["alice"] again. *)
Lemma failed_attempts_counting_witness :
  app_flow (ClickPage (Login "alice" "bad")) w_out
  = (Ok tt, with_failed_attempts 1 w_out,
     [kdf_call "bad" (urandom_bytes w_fresh 0 16);
      st_error "Invalid credentials. 2 attempts left"])
  ∧ app_flow (ClickPage (Login "bob" "guess")) (with_failed_attempts 1 w_out)
    = (Ok tt, with_failed_attempts 2 w_out,
       [kdf_call "guess" (urandom_bytes w_alice 0 16);
        st_error "Invalid credentials. 1 attempts left"])
  ∧ app_flow (ClickPage (Login "alice" "pw2")) (with_failed_attempts 2 w_out)
    = (Ok tt, with_failed_attempts 3 w_out,
       [kdf_call "pw2" (urandom_bytes w_fresh 0 16);
        st_error "Invalid credentials. 0 attempts left"]).
Proof.
  assert (∀ u p s acct,
            u ≠ ""%string → p ≠ ""%string →
            data_store (session w_out) !! u = Some acct →
            urlsafe_b64decode (password_salt acct) = B64Ok s →
            derived_key p s ≠ password_hash acct →
            rejected_login w_out u p s) as Hrej.
  { intros u p s acct Hu Hp Hacct Hs Hne. split; [exact Hu|]. split; [exact Hp|].
    exists acct. auto. }
  assert (authorized (session w_out) = false) as Hauth by (vm_compute; reflexivity).
  assert (failed_attempts (session w_out) = 0%Z) as H0 by (vm_compute; reflexivity).
  assert (rejected_login w_out "alice" "bad" (urandom_bytes w_fresh 0 16)) as R1.
  { eapply Hrej; [discriminate|discriminate|vm_compute; reflexivity
                 |vm_compute; reflexivity|].
    intros Heq. vm_compute in Heq. discriminate Heq. }
  assert (rejected_login w_out "bob" "guess" (urandom_bytes w_alice 0 16)) as R2.
  { eapply Hrej; [discriminate|discriminate|vm_compute; reflexivity
                 |vm_compute; reflexivity|].
    intros Heq. vm_compute in Heq. discriminate Heq. }
  assert (rejected_login w_out "alice" "pw2" (urandom_bytes w_fresh 0 16)) as R3.
  { eapply Hrej; [discriminate|discriminate|vm_compute; reflexivity
                 |vm_compute; reflexivity|].
    intros Heq. vm_compute in Heq. discriminate Heq. }
  destruct (failed_attempts_counting w_out _ _ _ _ _ _ _ _ _ Hauth H0 R1 R2 R3)
    as (_ & A1 & A2 & A3 & _).
  exact (conj A1 (conj A2 A3)).
Defined.

(** C5, counterexample.  Two facts about the running process in which
    ["alice"] and ["bob"] are registered.  After two refused logins in the
    first browser session a second session connects: its counter is 0
    while the first session's is 2, and the third wrong password, typed in
    the second session, is answered with 2 attempts left, not 0; the
    counter is reset without a restart and is not one per process.  And
    ["pw1"] followed by a NUL character, which is not ["alice"]'s
    password, derives her verifier: the attempt is let in and not
    counted. *)
Lemma counter_is_per_session :
  session_counter 0 p_refused = Some 2%Z
  ∧ session_counter 0 p_second = Some 2%Z
  ∧ session_counter 1 p_second = Some 0%Z
  ∧ (run_session 1 (ClickPage (Login "alice" "pw2")) p_second).2
    = [kdf_call "pw2" (urandom_bytes w_fresh 0 16);
       st_error "Invalid credentials. 2 attempts left"]
  ∧ "pw1"%string ≠ padded "pw1"
  ∧ app_flow (ClickPage (Login "alice" (padded "pw1"))) w_out
    = (Raise RerunException, logged_in "alice" w_out,
       [kdf_call (padded "pw1") (urandom_bytes w_fresh 0 16)])
  ∧ failed_attempts (session (logged_in "alice" w_out)) = 0%Z.
Proof.
  split; [vm_compute; reflexivity|]. split; [vm_compute; reflexivity|].
  split; [vm_compute; reflexivity|]. split; [vm_compute; reflexivity|].
  split; [intros Heq; vm_compute in Heq; discriminate Heq|].
  split; vm_compute; reflexivity.
Qed.

(** C1, counterexample.  With the non-empty passkey ["k1"] and the empty
    plaintext the store page seals nothing: it shows ["All fields required"]
    and leaves the world, hence the user's entries, as they were. *)
Lemma store_refuses_empty_plaintext :
  store_data_page true "" "k1" w_alice
  = (Ok tt, w_alice, [st_error "All fields required"]).
Proof. reflexivity. Qed.

(** C3, counterexample.  The username [""] is not in the store and the
    password ["pw1"] is not empty, yet no account is created: the page shows
    ["Please fill all fields"] and leaves the world as it was. *)
Lemma login_refuses_empty_username :
  data_store (session w_fresh) !! ""%string = None
  ∧ login_page true "" "pw1" w_fresh
    = (Ok tt, w_fresh, [st_error "Please fill all fields"]).
Proof. split; reflexivity. Qed.

(** X1 on a concrete run: ["alice"] registers and stores an entry. *)
Lemma reachable_current_user_known_witness :
  current_user_known
    (world_of (app_flow (ClickPage (Store "hello world" "k1"))
                 (world_of (app_flow (ClickPage (Login "alice" "pw1")) w_fresh)))).
Proof.
  apply reachable_current_user_known.
  apply reachable_click. apply reachable_click.
  exact (reachable_fresh ∅ Absent Writable sim_entropy 1762214400).
Defined.

(** X3 on a concrete world: ["alice"] stores her first entry. *)
Lemma accounts_only_grow_witness :
  ∃ acct',
    data_store (session (world_of (press (Store "hello world" "k1") w_alice)))
      !! "alice"%string = Some acct'
    ∧ password_salt acct' = "AwoRGB8mLTQ7QklQV15lbA=="%string
    ∧ password_hash acct' = "cHcxAwoRGB8mLTQ7QklQV15lbAAAAAAAAAAAAAAAAAA="%string
    ∧ [] `prefix_of` entries acct'.
Proof.
  assert (data_store (session w_alice) !! "alice"%string
          = Some {| password_salt := "AwoRGB8mLTQ7QklQV15lbA==";
                    password_hash := "cHcxAwoRGB8mLTQ7QklQV15lbAAAAAAAAAAAAAAAAAA=";
                    entries := [] |}) as Hacct by (vm_compute; reflexivity).
  exact (accounts_only_grow (Store "hello world" "k1") w_alice "alice" _ Hacct).
Defined.

(** X5 on a concrete world: with the counter at 7 the right password is let
    in; with the counter at 3 the wrong one is refused and [-1] attempts
    are announced. *)
Lemma no_lockout_witness :
  login_page true "alice" "pw1" (with_failed_attempts 7 w_sealed)
  = (Raise RerunException, logged_in "alice" (with_failed_attempts 7 w_sealed),
     [kdf_call "pw1" (urandom_bytes w_fresh 0 16)])
  ∧ login_page true "alice" "pw2" (with_failed_attempts 3 w_sealed)
    = (Ok tt, with_failed_attempts 4 w_sealed,
       [kdf_call "pw2" (urandom_bytes w_fresh 0 16);
        st_error "Invalid credentials. -1 attempts left"]).
Proof.
  split.
  - refine (proj2 (proj2 (proj2
              (proj1 (no_lockout w_sealed 7 "alice" "pw1" _
                        (urandom_bytes w_fresh 0 16) _ _ _ _) _))) _);
      [discriminate|discriminate|vm_compute; reflexivity|vm_compute; reflexivity
      |vm_compute; reflexivity|vm_compute; reflexivity].
  - refine (eq_trans (proj2 (no_lockout w_sealed 3 "alice" "pw2" _
                               (urandom_bytes w_fresh 0 16) _ _ _ _) _) _);
      [discriminate|discriminate|vm_compute; reflexivity|vm_compute; reflexivity
      | |reflexivity].
    intros Heq. vm_compute in Heq. discriminate Heq.
Defined.

(** X4 on a concrete world: ["alice"] registers with ["pw1"], logs out and
    logs in again. *)
Lemma register_logout_login_witness :
  app_flow (ClickPage (Login "alice" "pw1")) w_fresh
  = (Raise RerunException, registered "alice" "pw1" w_fresh,
     [kdf_call "pw1" (urandom_bytes w_fresh 0 16);
      st_success "Account created! Logged in."])
  ∧ app_flow ClickLogout (registered "alice" "pw1" w_fresh)
    = (Raise RerunException, logged_out (registered "alice" "pw1" w_fresh), [])
  ∧ app_flow (ClickPage (Login "alice" "pw1"))
      (logged_out (registered "alice" "pw1" w_fresh))
    = (Raise RerunException,
       logged_in "alice" (logged_out (registered "alice" "pw1" w_fresh)),
       [kdf_call "pw1" (urandom_bytes w_fresh 0 16)])
  ∧ session (logged_in "alice" (logged_out (registered "alice" "pw1" w_fresh)))
    = session (registered "alice" "pw1" w_fresh).
Proof.
  assert (authorized (session w_fresh) = false) as Hauth by reflexivity.
  assert ("alice" ≠ "")%string as Hu by discriminate.
  assert ("pw1" ≠ "")%string as Hp by discriminate.
  assert (data_store (session w_fresh) !! "alice"%string = None) as Hnone
    by (vm_compute; reflexivity).
  destruct (register_logout_login w_fresh "alice" "pw1" Hauth Hu Hp Hnone)
    as (_ & H1 & H2 & _ & _ & _ & _ & H6 & H7).
  exact (conj (H1 eq_refl) (conj H2 (conj (H6 eq_refl) H7))).
Defined.

(** X6 on a concrete run: register, store, a retrieval with the wrong
    passkey, logout, and a refused login. *)
Lemma presses_never_crash_witness :
  Forall finished
    (presses [ClickPage (Login "alice" "pw1");
              ClickPage (Store "hello world" "k1");
              ClickPage (Retrieve c_sealed "k2");
              ClickLogout;
              ClickPage (Login "alice" "nope")] w_fresh).1.
Proof.
  refine (proj1 (presses_never_crash _ w_fresh _)).
  apply fresh_empty_healthy. vm_compute. reflexivity.
Defined.

(** X8 on concrete worlds: no entry after registration, one after the
    store. *)
Lemma dashboard_counts_entries_witness :
  dashboard_page w_alice = (Ok 0%nat, w_alice, [])
  ∧ dashboard_page (world_of (store_data_page true "hello world" "k1" w_alice))
    = (Ok 1%nat, world_of (store_data_page true "hello world" "k1" w_alice), []).
Proof.
  assert (data_store (session w_alice) !! current_user (session w_alice)
          = Some {| password_salt := "AwoRGB8mLTQ7QklQV15lbA==";
                    password_hash := "cHcxAwoRGB8mLTQ7QklQV15lbAAAAAAAAAAAAAAAAAA=";
                    entries := [] |}) as Hacct by (vm_compute; reflexivity).
  destruct (dashboard_counts_entries w_alice _ Hacct) as (H0 & H1 & _).
  split; [exact H0|].
  refine (H1 "hello world" "k1" _ _ _);
    [discriminate|discriminate|vm_compute; reflexivity].
Defined.

(** X9 on a concrete world: ["dave"]'s salts are ["a"] and ["abcde"]. *)
Lemma undecodable_salt_escapes_witness :
  login_page true "dave" "pw1" w_bad = (Raise BinasciiError, w_bad, [])
  ∧ retrieve_data_page true "CCCC" "k1" w_bad = (Raise BinasciiError, w_bad, []).
Proof.
  split.
  - refine (proj1 (undecodable_salt_escapes w_bad _) "dave" "pw1" BinasciiError _ _ _ _);
      [discriminate|discriminate|vm_compute; reflexivity|vm_compute; reflexivity].
  - refine (proj2 (undecodable_salt_escapes w_bad _) "CCCC" "k1" e_bad BinasciiError
              _ _ _ _ _);
      [discriminate|discriminate|vm_compute; reflexivity|vm_compute; reflexivity
      |vm_compute; reflexivity].
Defined.

(** X10 on a concrete world: the derivation the retrieve page makes for the
    entry ["alice"] sealed. *)
Lemma retrieve_derives_for_own_entry_witness :
  ∃ acct e,
    data_store (session w_sealed) !! current_user (session w_sealed) = Some acct
    ∧ e ∈ entries acct
    ∧ encrypted_data e = c_sealed
    ∧ urlsafe_b64decode (entry_salt e) = B64Ok (urandom_bytes w_alice 0 16).
Proof.
  refine (proj2 (retrieve_derives_for_own_entry w_sealed c_sealed "k2"
                   (str_encode "k2") (urandom_bytes w_alice 0 16) PBKDF2_ITERATIONS _)).
  vm_compute. left. reflexivity.
Defined.

(** X11 on a concrete world: the session names ["erin"], the store is
    empty. *)
Lemma missing_record_raises_witness :
  dashboard_page w_lost = (Raise KeyError, w_lost, [])
  ∧ retrieve_data_page true "CCCC" "k1" w_lost = (Raise KeyError, w_lost, [])
  ∧ result_of (store_data_page true "hello world" "k1" w_lost) = Raise KeyError.
Proof.
  assert (data_store (session w_lost) !! current_user (session w_lost) = None) as Hnone
    by (vm_compute; reflexivity).
  destruct (missing_record_raises w_lost Hnone) as (H1 & H2 & H3).
  split; [exact H1|]. split.
  - apply H2; discriminate.
  - rewrite H3; [reflexivity|discriminate|discriminate|vm_compute; reflexivity].
Defined.

(** X12 on concrete worlds: no file, and a file cut off after ["{ "]. *)
Lemma load_data_falls_back_witness :
  result_of (load_data w_fresh) = Ok (JObject [])
  ∧ result_of (load_data w_truncated) = Ok (JObject []).
Proof.
  split.
  - exact (proj1 (proj2 (proj2 (load_data_falls_back w_fresh))) eq_refl).
  - refine (proj1 (proj2 (proj2 (proj2 (load_data_falls_back w_truncated))))
              (str_encode "{ ") "{ " _ _ _); vm_compute; reflexivity.
Defined.

(** X13 on concrete inputs: a count of zero, a count above [INT_MAX], and
    the default count. *)
Lemma derive_key_text_witness :
  derive_key "k1" (urandom_bytes w_fresh 0 16) (Some 0) w_fresh
  = (Raise ValueError, w_fresh, [])
  ∧ derive_key "k1" (urandom_bytes w_fresh 0 16) (Some 2147483648) w_fresh
    = (Raise OverflowError, w_fresh, [])
  ∧ derive_key "k1" (urandom_bytes w_fresh 0 16) None w_fresh
    = (Ok (derived_key "k1" (urandom_bytes w_fresh 0 16)), w_fresh,
       [kdf_call "k1" (urandom_bytes w_fresh 0 16)]).
Proof.
  split; [|split].
  - exact (proj1 (derive_key_text "k1" (urandom_bytes w_fresh 0 16) (Some 0) w_fresh)
             eq_refl).
  - exact (proj1 (proj2 (derive_key_text "k1" (urandom_bytes w_fresh 0 16)
                           (Some 2147483648) w_fresh)) eq_refl).
  - refine (proj1 (proj2 (proj2 (derive_key_text "k1" (urandom_bytes w_fresh 0 16)
                                   None w_fresh)) _ _));
      vm_compute; discriminate.
Defined.

(** X14 on a concrete world: ["alice"] registers on a first run whose
    backing file cannot be created. *)
Lemma unsaved_changes_stay_in_memory_witness :
  login_page true "alice" "pw1" w_readonly
  = (Raise OSError, set_data_file Absent (registered "alice" "pw1" w_readonly),
     [kdf_call "pw1" (urandom_bytes w_fresh 0 16);
      st_success "Account created! Logged in."])
  ∧ authorized (session (registered "alice" "pw1" w_readonly)) = true.
Proof.
  split; [|reflexivity].
  refine (proj1 (unsaved_changes_stay_in_memory w_readonly _) "alice" "pw1" _ _ _);
    [reflexivity|discriminate|discriminate|vm_compute; reflexivity].
Defined.

End runs.
